(** * go-http-client: the request execution pipeline

    A shallow embedding of the retry engine (retry.go), the response
    middleware buffering protocol and the URL join (request.go), the error
    classifier (errors.go) and the transport defaults of [NewClient]
    (client.go), with the properties the specification states about them.

    Conventions.
    - Go [int], [int64] and [time.Duration] are [Z]; where the source can
      overflow, the 64-bit wrap-around is written out with [wrap64].
    - Go [string] is [string], [[]byte] is [list byte].
    - A nil pointer or nil interface is [None].
    - What the source gets from its environment (the [Doer], [math/rand],
      the clock and the [context.Context]) is an explicit argument. *)

From Stdlib Require Import ZArith List Bool Lia.
From Stdlib.Strings Require Import String Ascii Byte.
From Stdlib Require Import DecimalString.
Import ListNotations.
Open Scope string_scope.
Open Scope Z_scope.

(* ================================================================== *)
(** ** Errors *)

(** The error values the pipeline creates or passes on.  [Wrap msg e] is
    [fmt.Errorf(msg + ": %w", e)]. *)
Inductive error : Type :=
| TransportFault (msg : string)       (* whatever the Doer reports *)
| ErrBodyReadAfterClose               (* net/http: read on closed response body *)
| ReadFault (msg : string)            (* a body stream that breaks while read *)
| Canceled                            (* context.Canceled *)
| DeadlineExceeded                    (* context.DeadlineExceeded *)
| MiddlewareFault (msg : string)      (* whatever a middleware step reports *)
| Wrap (msg : string) (cause : error).

(** [%d] of a Go int. *)
Definition itoa (n : Z) : string := NilZero.string_of_int (Z.to_int n).

(** The [Error()] method. *)
Fixpoint error_string (e : error) : string :=
  match e with
  | TransportFault msg => msg
  | ErrBodyReadAfterClose => "http: read on closed response body"
  | ReadFault msg => msg
  | Canceled => "context canceled"
  | DeadlineExceeded => "context deadline exceeded"
  | MiddlewareFault msg => msg
  | Wrap msg cause => msg ++ ": " ++ error_string cause
  end.

(* ================================================================== *)
(** ** Response envelopes *)

(** [io.ReadCloser] as the pipeline meets it: the body the transport hands
    out, and [io.NopCloser(bytes.NewReader(b))].

    A transport body holds the bytes not yet read and the fault its stream
    ends with ([None]: a clean EOF); once closed, every read fails with
    [ErrBodyReadAfterClose].  A [NopCloser] holds the unread part of its
    buffer; its [Close] does nothing. *)
Inductive ReadCloser : Type :=
| TransportBody (unread : list byte) (fault : option error) (closed : bool)
| NopCloser (unread : list byte).

(** [body.Close()]. *)
Definition Close (b : ReadCloser) : ReadCloser :=
  match b with
  | TransportBody d f _ => TransportBody d f true
  | NopCloser d => NopCloser d
  end.

(** [io.ReadAll(body)]: the bytes read, the fault, and the drained body. *)
Definition ReadAll (b : ReadCloser) : list byte * option error * ReadCloser :=
  match b with
  | TransportBody d f false => (d, f, TransportBody [] f false)
  | TransportBody d f true => ([], Some ErrBodyReadAfterClose, TransportBody d f true)
  | NopCloser d => (d, None, NopCloser [])
  end.

(** [*http.Response], the fields the pipeline looks at. *)
Record Response : Type := mkResponse {
  StatusCode : Z;
  Header : list (string * string);
  Body : ReadCloser
}.

Definition setBody (r : Response) (b : ReadCloser) : Response :=
  {| StatusCode := StatusCode r; Header := Header r; Body := b |}.

(** [_ = resp.Body.Close()] on the shared response object. *)
Definition closeBody (r : Response) : Response := setBody r (Close (Body r)).

(* ================================================================== *)
(** ** retry.go *)

(** [time.Duration]: a count of nanoseconds. *)
Abbreviation Duration := Z (only parsing).

Definition Nanosecond : Duration := 1.
Definition Millisecond : Duration := 1000000.
Definition Second : Duration := 1000000000.

(** Signed 64-bit wrap-around of Go's integer arithmetic. *)
Definition wrap64 (z : Z) : Z := (z + 2 ^ 63) mod 2 ^ 64 - 2 ^ 63.

Record RetryConfig : Type := mkRetryConfig {
  MaxAttempts : Z;
  WaitTime : Duration;
  MaxWaitTime : Duration;
  ShouldRetry : option (option Response -> option error -> bool)
}.

Definition DefaultRetryWaitTime : Duration := 200 * Millisecond.
Definition DefaultRetryMaxWaitTime : Duration := 10 * Second.
Definition DefaultRetryAttempts : Z := 3.

(** [applyRetryDefaults]: the three fields are tested against 0 one by one. *)
Definition applyRetryDefaults (config : RetryConfig) : RetryConfig :=
  {| MaxAttempts :=
       if MaxAttempts config =? 0 then DefaultRetryAttempts else MaxAttempts config;
     WaitTime :=
       if WaitTime config =? 0 then DefaultRetryWaitTime else WaitTime config;
     MaxWaitTime :=
       if MaxWaitTime config =? 0 then DefaultRetryMaxWaitTime else MaxWaitTime config;
     ShouldRetry := ShouldRetry config |}.

Definition StatusTooManyRequests : Z := 429.

(** [defaultShouldRetry]. *)
Definition defaultShouldRetry (resp : option Response) (err : option error) : bool :=
  match err with
  | Some _ => true
  | None =>
    match resp with
    | None => true
    | Some r =>
      if StatusCode r >=? 500 then true
      else if StatusCode r =? StatusTooManyRequests then true
      else false
    end
  end.

(** [time.Duration(math.Pow(2, float64(attempt)))].  Powers of two are exact
    in float64, so for [0 <= attempt <= 62] the conversion gives [2^attempt];
    a negative exponent gives a fraction below 1, truncated to 0.  From
    [2^63] on the value is outside int64 and Go leaves the conversion to the
    implementation; the value here is the one of amd64. *)
Definition pow2Duration (attempt : Z) : Z :=
  if attempt <? 0 then 0
  else if attempt <=? 62 then 2 ^ attempt
  else - 2 ^ 63.

(** [rand.Int63n(n)] for [n > 0], from the raw draw [r] of the source:
    some value of [[0, n)], and every such value for some draw. *)
Definition Int63n (r : Z) (n : Z) : Z := r mod n.

(** [calculateBackoff], with the draw [r] of the random source it consumes. *)
Definition calculateBackoff (r : Z) (attempt : Z) (waitTime maxWaitTime : Duration)
  : Duration :=
  let backoff := wrap64 (waitTime * pow2Duration attempt) in
  let backoff := if backoff >? maxWaitTime then maxWaitTime else backoff in
  let jitter := Z.quot backoff 2 in
  let jitter := if jitter >? 0 then Int63n r jitter else jitter in
  wrap64 (Z.quot backoff 2 + jitter).

(** *** The environment of one execution

    The [Doer] is whatever answers the successive calls of [client.Do]: the
    [n]-th call (from 0) gets [outcome (transport n)] after [took (transport
    n)] nanoseconds.  [draw n] is the raw value [math/rand] yields at the wait
    that follows attempt [n].  Where timer and cancellation are ready at the
    same instant, Go's [select] picks one of them pseudo-randomly:
    [timerWins n] is that pick. *)
Record Exchange : Type := mkExchange {
  took : Duration;
  outcome : option Response * option error
}.

Record Env : Type := mkEnv {
  transport : nat -> Exchange;
  draw : nat -> Z;
  timerWins : nat -> bool
}.

(** [context.Context]: the instant its [Done] channel closes ([None]: never,
    as for [context.Background()]) and what [Err()] reports from then on. *)
Record Context : Type := mkContext {
  doneAt : option Z;
  cause : error
}.

(** [ctx.Err()] at instant [t]. *)
Definition ctxErr (ctx : Context) (t : Z) : option error :=
  match doneAt ctx with
  | Some d => if d <=? t then Some (cause ctx) else None
  | None => None
  end.

(** The clock and the number of [client.Do] calls made so far. *)
Record State : Type := mkState {
  clock : Z;
  calls : nat
}.

(** [client.Do(req)]: the request is the same object at every attempt. *)
Definition Do (env : Env) (st : State) : (option Response * option error) * State :=
  let ex := transport env (calls st) in
  (outcome ex, {| clock := clock st + took ex; calls := S (calls st) |}).

(** [waitWithBackoff].  The timer fires [backoff] after now (at once for a
    duration that is not positive); the [select] takes the channel that is
    ready first, and is resolved by [timerWins] on a tie. *)
Definition waitWithBackoff (env : Env) (ctx : Context) (st : State)
    (attempt : Z) (config : RetryConfig) : option error * State :=
  let backoff :=
    calculateBackoff (draw env (Z.to_nat attempt)) attempt
                     (WaitTime config) (MaxWaitTime config) in
  let fires := clock st + Z.max 0 backoff in
  let timerC := (None, {| clock := fires; calls := calls st |}) in
  match doneAt ctx with
  | None => timerC
  | Some d =>
    let done := Z.max (clock st) d in
    let ctxDone := (ctxErr ctx done, {| clock := done; calls := calls st |}) in
    if done <? fires then ctxDone
    else if fires <? done then timerC
    else if timerWins env (Z.to_nat attempt) then timerC else ctxDone
  end.

Definition shouldRetryOf (config : RetryConfig)
    (resp : option Response) (err : option error) : bool :=
  match ShouldRetry config with
  | Some custom => custom resp err
  | None => defaultShouldRetry resp err
  end.

(** What follows the loop of [executeWithRetry]. *)
Definition afterLoop (config : RetryConfig)
    (resp : option Response) (lastErr : option error)
  : option Response * option error :=
  match lastErr with
  | Some e =>
    (None, Some (Wrap ("request failed after " ++ itoa (MaxAttempts config) ++ " attempts") e))
  | None => (resp, None)
  end.

(** The loop [for attempt := 0; attempt < config.MaxAttempts; attempt++] of
    [executeWithRetry], entered at [attempt] with [resp] and [lastErr] as the
    previous iteration left them.  [todo] is the number of iterations the
    loop condition still admits, [Z.to_nat (MaxAttempts - attempt)]. *)
Fixpoint retryLoop (env : Env) (ctx : Context) (config : RetryConfig)
    (todo : nat) (attempt : Z) (st : State)
    (resp : option Response) (lastErr : option error)
  : (option Response * option error) * State :=
  match todo with
  | O => (afterLoop config resp lastErr, st)
  | S todo' =>
    let '((resp, lastErr), st) := Do env st in
    if negb (shouldRetryOf config resp lastErr) then ((resp, lastErr), st)
    else
      let resp := option_map closeBody resp in
      if attempt <? MaxAttempts config - 1 then
        match waitWithBackoff env ctx st attempt config with
        | (Some err, st) => ((None, Some err), st)
        | (None, st) => retryLoop env ctx config todo' (attempt + 1) st resp lastErr
        end
      else retryLoop env ctx config todo' (attempt + 1) st resp lastErr
  end.

(** [executeWithRetry]. *)
Definition executeWithRetry (env : Env) (ctx : Context) (st : State)
    (config : RetryConfig) : (option Response * option error) * State :=
  let config := applyRetryDefaults config in
  retryLoop env ctx config (Z.to_nat (MaxAttempts config)) 0 st None None.

(* ================================================================== *)
(** ** request.go *)

(** [ResponseMiddleware]: a step works on the response object it is given
    and reports a fault or nil. *)
Definition ResponseMiddleware : Type := Response -> Response * option error.

(** [io.NopCloser(bytes.NewReader(body))]. *)
Definition freshView (body : list byte) : ReadCloser := NopCloser body.

(** What a run of the response middleware leaves: the response object, the
    fault returned, and (for the statements below, not in the source) the
    response as each step found it, in order. *)
Record MiddlewareRun : Type := mkMiddlewareRun {
  envelope : Response;
  fault : option error;
  handed : list Response
}.

(** The loop of [applyResponseMiddleware] over the steps still to run. *)
Fixpoint middlewareLoop (body : list byte) (steps : list ResponseMiddleware)
    (resp : Response) : MiddlewareRun :=
  match steps with
  | [] => {| envelope := resp; fault := None; handed := [] |}
  | mw :: steps' =>
    let '(resp', err) := mw resp in
    match err with
    | Some e =>
      {| envelope := setBody resp' (freshView body);
         fault := Some (Wrap "response middleware error" e);
         handed := [resp] |}
    | None =>
      let run := middlewareLoop body steps' (setBody resp' (freshView body)) in
      {| envelope := envelope run; fault := fault run; handed := resp :: handed run |}
    end
  end.

(** [applyResponseMiddleware]. *)
Definition applyResponseMiddleware (steps : list ResponseMiddleware)
    (resp : Response) : MiddlewareRun :=
  let '(body, err, drained) := ReadAll (Body resp) in
  match err with
  | Some e =>
    {| envelope := setBody resp drained;
       fault := Some (Wrap "failed to read response body for middleware" e);
       handed := [] |}
  | None =>
    let resp := setBody resp (Close drained) in
    let resp := setBody resp (freshView body) in
    middlewareLoop body steps resp
  end.

(** [strings.HasPrefix], [strings.HasSuffix], [strings.TrimPrefix] and
    [strings.TrimSuffix]. *)
Definition HasPrefix (s pre : string) : bool := String.prefix pre s.

Definition HasSuffix (s suf : string) : bool :=
  (String.length suf <=? String.length s)%nat &&
  String.eqb (substring (String.length s - String.length suf) (String.length suf) s) suf.

Definition TrimPrefix (s pre : string) : string :=
  if HasPrefix s pre
  then substring (String.length pre) (String.length s - String.length pre) s
  else s.

Definition TrimSuffix (s suf : string) : string :=
  if HasSuffix s suf
  then substring 0 (String.length s - String.length suf) s
  else s.

(** [joinURL]. *)
Definition joinURL (base p : string) : string :=
  if String.eqb p "" then base
  else
    let base := TrimSuffix base "/" in
    let p := TrimPrefix p "/" in
    (base ++ "/" ++ p)%string.

(* ================================================================== *)
(** ** errors.go *)

Module APIError.
Record t : Type := mk {
  StatusCode : Z;
  Message : string;
  Body : list byte
}.
End APIError.

Module ErrorResponse.
Record t : Type := mk {
  Error : string;
  Message : string;
  Detail : string;
  Code : string
}.
End ErrorResponse.

(** [firstNonEmpty]. *)
Fixpoint firstNonEmpty (strs : list string) : string :=
  match strs with
  | [] => ""
  | s :: strs' => if negb (String.eqb s "") then s else firstNonEmpty strs'
  end.

(** [handleErrorResponse].  [unmarshal body] is [json.Unmarshal(body,
    &errResp)] of encoding/json: the decoded [ErrorResponse], or [None] when
    it reports an error. *)
Definition handleErrorResponse (unmarshal : list byte -> option ErrorResponse.t)
    (resp : Response) : APIError.t :=
  let '(body, err, _) := ReadAll (Body resp) in
  match err with
  | Some e =>
    {| APIError.StatusCode := StatusCode resp;
       APIError.Message := "failed to read error response: " ++ error_string e;
       APIError.Body := [] |}
  | None =>
    let raw :=
      {| APIError.StatusCode := StatusCode resp;
         APIError.Message := string_of_list_byte body;
         APIError.Body := body |} in
    match unmarshal body with
    | Some errResp =>
      let msg := firstNonEmpty [ErrorResponse.Message errResp;
                                ErrorResponse.Detail errResp;
                                ErrorResponse.Error errResp] in
      if negb (String.eqb msg "")
      then {| APIError.StatusCode := StatusCode resp;
              APIError.Message := msg;
              APIError.Body := body |}
      else raw
    | None => raw
    end
  end.

(** The status test of [RequestBuilder.Do] and the classifier call it
    guards: [Some] is the failure returned for a status outside
    [[200, 300)]. *)
Definition classify (unmarshal : list byte -> option ErrorResponse.t)
    (resp : Response) : option APIError.t :=
  if (StatusCode resp <? 200) || (StatusCode resp >=? 300)
  then Some (handleErrorResponse unmarshal resp)
  else None.

(* ================================================================== *)
(** ** client.go *)

Module Config.
Record t : Type := mk {
  BaseURL : string;
  Timeout : Duration;
  MaxIdleConns : Z;
  MaxIdleConnsPerHost : Z;
  IdleConnTimeout : Duration
}.
End Config.

(** [http.Transport], the fields [NewClient] sets. *)
Module Transport.
Record t : Type := mk {
  MaxIdleConns : Z;
  MaxIdleConnsPerHost : Z;
  IdleConnTimeout : Duration
}.
End Transport.

(** A [Doer]: the [http.Client] that [NewClient] builds, or the one an
    option puts in its place. *)
Inductive Doer : Type :=
| StdClient (timeout : Duration) (transport : Transport.t)
| CustomDoer (answers : nat -> Exchange).

(** [HTTPClient], without the request-side middleware list. *)
Record HTTPClient : Type := mkHTTPClient {
  baseURL : string;
  httpClient : Doer;
  retryConfig : option RetryConfig;
  responseMiddleware : list ResponseMiddleware
}.

Definition Option : Type := HTTPClient -> HTTPClient.

(** The transport of [NewClient]: the three settings are copied from the
    configuration, then the defaults are applied. *)
Definition newTransport (config : Config.t) : Transport.t :=
  let maxIdleConns := Config.MaxIdleConns config in
  let maxIdleConnsPerHost := Config.MaxIdleConnsPerHost config in
  let idleConnTimeout := Config.IdleConnTimeout config in
  let maxIdleConnsPerHost :=
    if maxIdleConnsPerHost =? 0 then 100 else maxIdleConnsPerHost in
  let idleConnTimeout :=
    if idleConnTimeout =? 0 then 90 * Second else idleConnTimeout in
  {| Transport.MaxIdleConns := maxIdleConns;
     Transport.MaxIdleConnsPerHost := maxIdleConnsPerHost;
     Transport.IdleConnTimeout := idleConnTimeout |}.

(** [NewClient]; a nil configuration stands for one with only the timeout
    set. *)
Definition NewClient (config : option Config.t) (opts : list Option) : HTTPClient :=
  let config :=
    match config with
    | Some c => c
    | None => {| Config.BaseURL := ""; Config.Timeout := 30 * Second;
                 Config.MaxIdleConns := 0; Config.MaxIdleConnsPerHost := 0;
                 Config.IdleConnTimeout := 0 |}
    end in
  let client :=
    {| baseURL := Config.BaseURL config;
       httpClient := StdClient (Config.Timeout config) (newTransport config);
       retryConfig := None;
       responseMiddleware := [] |} in
  fold_left (fun c opt => opt c) opts client.

(** [WithRetry], [WithResponseMiddleware] and [WithHTTPClient]. *)
Definition WithRetry (maxAttempts : Z) (waitTime maxWaitTime : Duration) : Option :=
  fun c =>
    {| baseURL := baseURL c; httpClient := httpClient c;
       retryConfig := Some {| MaxAttempts := maxAttempts; WaitTime := waitTime;
                              MaxWaitTime := maxWaitTime; ShouldRetry := None |};
       responseMiddleware := responseMiddleware c |}.

Definition WithResponseMiddleware (mw : ResponseMiddleware) : Option :=
  fun c =>
    {| baseURL := baseURL c; httpClient := httpClient c;
       retryConfig := retryConfig c;
       responseMiddleware := responseMiddleware c ++ [mw] |}.

Definition WithHTTPClient (doer : Doer) : Option :=
  fun c =>
    {| baseURL := baseURL c; httpClient := doer;
       retryConfig := retryConfig c;
       responseMiddleware := responseMiddleware c |}.

(* ================================================================== *)
(** ** What the specification says, in its own words *)

(** The [k]-th send of an execution that starts in [st]. *)
Definition attemptOutcome (env : Env) (st : State) (k : nat)
  : option Response * option error :=
  outcome (transport env (calls st + k)).

(** Every one of the first [n] attempts is judged retryable. *)
Definition allRetryable (env : Env) (config : RetryConfig) (st : State) (n : nat)
  : Prop :=
  forall k, (k < n)%nat ->
    shouldRetryOf config (fst (attemptOutcome env st k))
                         (snd (attemptOutcome env st k)) = true.

(** Section 4.2, last rule: the result once the attempts are exhausted,
    from what the last attempt produced.  A fault is wrapped with the attempt
    count; an envelope comes back itself (the response object of the last
    attempt, on which the loop has called [Close]) with no error. *)
Definition exhaustedResult (config : RetryConfig)
    (last : option Response * option error) : option Response * option error :=
  match last with
  | (_, Some e) =>
    (None, Some (Wrap ("request failed after " ++ itoa (MaxAttempts config) ++ " attempts") e))
  | (Some r, None) => (Some (closeBody r), None)
  | (None, None) => (None, None)
  end.


(** Section 4.4: the message of the Structured Error for a body that was
    read: the first non-empty of [message], [detail], [error] when the body
    parses and one of them is non-empty, else the raw body text. *)
Definition classifierMessage (unmarshal : list byte -> option ErrorResponse.t)
    (body : list byte) : string :=
  match unmarshal body with
  | Some er =>
    if negb (String.eqb (ErrorResponse.Message er) "") then ErrorResponse.Message er
    else if negb (String.eqb (ErrorResponse.Detail er) "") then ErrorResponse.Detail er
    else if negb (String.eqb (ErrorResponse.Error er) "") then ErrorResponse.Error er
    else string_of_list_byte body
  | None => string_of_list_byte body
  end.

(** Section 4.1, step 1: whatever slashes end the base or start the path,
    the parts are joined by exactly one. *)
Fixpoint dropLeadingSlashes (s : string) : string :=
  match s with
  | String "/" s' => dropLeadingSlashes s'
  | _ => s
  end.

Fixpoint rev_string (s : string) (acc : string) : string :=
  match s with
  | EmptyString => acc
  | String c s' => rev_string s' (String c acc)
  end.

Definition dropTrailingSlashes (s : string) : string :=
  rev_string (dropLeadingSlashes (rev_string s "")) "".

Definition joinedByOneSlash (base p : string) : string :=
  (dropTrailingSlashes base ++ "/" ++ dropLeadingSlashes p)%string.

(* ================================================================== *)
(** ** Sample inputs *)

Definition background : Context := {| doneAt := None; cause := Canceled |}.

(** A context cancelled at instant 0. *)
Definition cancelled : Context := {| doneAt := Some 0; cause := Canceled |}.

Definition start : State := {| clock := 0; calls := 0 |}.

Definition response503 : Response :=
  {| StatusCode := 503; Header := [];
     Body := TransportBody [x6f; x6f; x70; x73] None false |}.

(** A server that answers every request with 503 after 5 ms. *)
Definition always503 : Env :=
  {| transport := fun _ => {| took := 5 * Millisecond;
                              outcome := (Some response503, None) |};
     draw := fun _ => 12345;
     timerWins := fun _ => true |}.

(** A transport that fails every request. *)
Definition alwaysDown : Env :=
  {| transport := fun _ => {| took := 5 * Millisecond;
                              outcome := (None, Some (TransportFault "connection refused")) |};
     draw := fun _ => 12345;
     timerWins := fun _ => true |}.

(** [WithRetry(3, 200*time.Millisecond, 10*time.Second)]. *)
Definition threeAttempts : RetryConfig :=
  {| MaxAttempts := 3; WaitTime := 200 * Millisecond; MaxWaitTime := 10 * Second;
     ShouldRetry := None |}.

Definition negativeAttempts : RetryConfig :=
  {| MaxAttempts := -1; WaitTime := 0; MaxWaitTime := 0; ShouldRetry := None |}.

(** A configuration with the pool settings left unset. *)
Definition unsetPool : Config.t :=
  {| Config.BaseURL := "https://api.example.com"; Config.Timeout := 30 * Second;
     Config.MaxIdleConns := 0; Config.MaxIdleConnsPerHost := 0;
     Config.IdleConnTimeout := 0 |}.

(** A step that reads the whole body and leaves it drained. *)
Definition drainingStep : ResponseMiddleware :=
  fun r => (setBody r (snd (ReadAll (Body r))), None).

(** A step that reads the whole body and then faults. *)
Definition faultingStep : ResponseMiddleware :=
  fun r => (setBody r (snd (ReadAll (Body r))), Some (MiddlewareFault "rejected")).


(** *** A decoder for the examples

    encoding/json is not part of the repository: the classifier takes the
    decoder as an argument.  For the examples of the specification this one
    reads a flat JSON object whose values are strings without escapes, and
    rejects everything else. *)
Definition quote : ascii := "034"%char.

Definition isSpace (c : ascii) : bool :=
  Ascii.eqb c " " || Ascii.eqb c "009" || Ascii.eqb c "010" || Ascii.eqb c "013".

Inductive scan : Type :=
| AtStart | AfterOpen | InKey (k : string) | AfterKey (k : string)
| BeforeValue (k : string) | InValue (k v : string) | AfterValue | BeforeKey
| AtEnd.

Definition snoc (s : string) (c : ascii) : string := (s ++ String c "")%string.

(** The fields are collected latest first. *)
Fixpoint scanObject (s : string) (state : scan) (fields : list (string * string))
  : option (list (string * string)) :=
  match s with
  | EmptyString => match state with AtEnd => Some fields | _ => None end
  | String c s' =>
    match state with
    | AtStart =>
      if isSpace c then scanObject s' AtStart fields
      else if Ascii.eqb c "{" then scanObject s' AfterOpen fields else None
    | AfterOpen =>
      if isSpace c then scanObject s' AfterOpen fields
      else if Ascii.eqb c quote then scanObject s' (InKey "") fields
      else if Ascii.eqb c "}" then scanObject s' AtEnd fields else None
    | InKey k =>
      if Ascii.eqb c quote then scanObject s' (AfterKey k) fields
      else if Ascii.eqb c "\" || (nat_of_ascii c <? 32)%nat then None
      else scanObject s' (InKey (snoc k c)) fields
    | AfterKey k =>
      if isSpace c then scanObject s' (AfterKey k) fields
      else if Ascii.eqb c ":" then scanObject s' (BeforeValue k) fields else None
    | BeforeValue k =>
      if isSpace c then scanObject s' (BeforeValue k) fields
      else if Ascii.eqb c quote then scanObject s' (InValue k "") fields else None
    | InValue k v =>
      if Ascii.eqb c quote then scanObject s' AfterValue ((k, v) :: fields)
      else if Ascii.eqb c "\" || (nat_of_ascii c <? 32)%nat then None
      else scanObject s' (InValue k (snoc v c)) fields
    | AfterValue =>
      if isSpace c then scanObject s' AfterValue fields
      else if Ascii.eqb c "," then scanObject s' BeforeKey fields
      else if Ascii.eqb c "}" then scanObject s' AtEnd fields else None
    | BeforeKey =>
      if isSpace c then scanObject s' BeforeKey fields
      else if Ascii.eqb c quote then scanObject s' (InKey "") fields else None
    | AtEnd => if isSpace c then scanObject s' AtEnd fields else None
    end
  end.

Fixpoint field (name : string) (fields : list (string * string)) : string :=
  match fields with
  | [] => ""
  | (k, v) :: fields' => if String.eqb k name then v else field name fields'
  end.

Definition unmarshalFlat (body : list byte) : option ErrorResponse.t :=
  match scanObject (string_of_list_byte body) AtStart [] with
  | Some fields =>
    Some {| ErrorResponse.Error := field "error" fields;
            ErrorResponse.Message := field "message" fields;
            ErrorResponse.Detail := field "detail" fields;
            ErrorResponse.Code := field "code" fields |}
  | None => None
  end.

(** A name or value between quotes. *)
Definition q (s : string) : string := String quote (snoc s quote).

(** The bodies of section 8: an object with [error] "e" and [message] "m",
    an object with [error] "e" alone, and text that is not JSON. *)
Definition bodyErrorMessage : list byte :=
  list_byte_of_string ("{" ++ q "error" ++ ":" ++ q "e" ++ "," ++
                       q "message" ++ ":" ++ q "m" ++ "}")%string.

Definition bodyErrorOnly : list byte :=
  list_byte_of_string ("{" ++ q "error" ++ ":" ++ q "e" ++ "}")%string.

Definition bodyPlain : list byte := list_byte_of_string "upstream unavailable".

Definition errorWith (status : Z) (body : list byte) : Response :=
  {| StatusCode := status; Header := []; Body := TransportBody body None false |}.

(* ================================================================== *)
(** ** errors.go: the methods of [APIError] *)

(** [(e *APIError) Error()]. *)
Definition APIError_Error (e : APIError.t) : string :=
  ("HTTP " ++ itoa (APIError.StatusCode e) ++ ": " ++ APIError.Message e)%string.

Definition IsNotFound (e : APIError.t) : bool := APIError.StatusCode e =? 404.
Definition IsUnauthorized (e : APIError.t) : bool := APIError.StatusCode e =? 401.
Definition IsForbidden (e : APIError.t) : bool := APIError.StatusCode e =? 403.

Definition IsClientError (e : APIError.t) : bool :=
  (APIError.StatusCode e >=? 400) && (APIError.StatusCode e <? 500).

Definition IsServerError (e : APIError.t) : bool :=
  (APIError.StatusCode e >=? 500) && (APIError.StatusCode e <? 600).

(* ================================================================== *)
(** ** Requests and request middleware *)

(** [http.Header]: a map from canonical keys to values.  The canonical form
    of a key is [textproto.CanonicalMIMEHeaderKey], of the standard library:
    the functions below take it as [canon]. *)
Definition HttpHeader : Type := string -> option (list string).

Definition emptyHeader : HttpHeader := fun _ => None.

(** [h.Set(key, value)]. *)
Definition headerSet (canon : string -> string) (h : HttpHeader)
    (key value : string) : HttpHeader :=
  fun k => if String.eqb k (canon key) then Some [value] else h k.

(** [h.Get(key)]. *)
Definition headerGet (canon : string -> string) (h : HttpHeader) (key : string)
  : string :=
  match h (canon key) with
  | Some (v :: _) => v
  | _ => ""%string
  end.

(** [*http.Request], the fields the pipeline sets. *)
Record Request : Type := mkRequest {
  Method : string;
  URL : string;
  ReqHeader : HttpHeader;
  ReqBody : option (list byte)
}.

(** [req.Header.Set(key, value)]. *)
Definition setHeader (canon : string -> string) (req : Request)
    (key value : string) : Request :=
  {| Method := Method req; URL := URL req;
     ReqHeader := headerSet canon (ReqHeader req) key value;
     ReqBody := ReqBody req |}.

(** [for k, v := range headers { req.Header.Set(k, v) }]; [headers] holds
    the entries of the map in the order the range visits them. *)
Definition setHeaders (canon : string -> string) (req : Request)
    (headers : list (string * string)) : Request :=
  fold_left (fun r kv => setHeader canon r (fst kv) (snd kv)) headers req.

Definition Middleware : Type := Request -> Request * option error.

(** [AuthMiddleware]. *)
Definition AuthMiddleware (canon : string -> string) (authType authValue : string)
  : Middleware :=
  fun req =>
    if String.eqb authType "Bearer"
    then (setHeader canon req "Authorization" ("Bearer " ++ authValue), None)
    else if String.eqb authType "APIKey"
    then (setHeader canon req "X-API-Key" authValue, None)
    else if String.eqb authType "Basic"
    then (setHeader canon req "Authorization" ("Basic " ++ authValue), None)
    else (req, Some (MiddlewareFault ("unsupported auth type: " ++ authType))).

(** [HeaderMiddleware]. *)
Definition HeaderMiddleware (canon : string -> string)
    (headers : list (string * string)) : Middleware :=
  fun req => (setHeaders canon req headers, None).

(** The loop [for _, mw := range b.client.middleware] of [execute]: the
    request as the steps leave it, or the fault of the first step that
    reports one. *)
Fixpoint applyMiddleware (steps : list Middleware) (req : Request)
  : Request * option error :=
  match steps with
  | [] => (req, None)
  | mw :: steps' =>
    let '(req', err) := mw req in
    match err with
    | Some e => (req', Some (Wrap "middleware error" e))
    | None => applyMiddleware steps' req'
    end
  end.

(* ================================================================== *)
(** ** request.go: the request builder *)

(** What the builder takes from the standard library: the canonical form of
    a header key, [url.Values.Encode], the error (if any) of
    [http.NewRequestWithContext] for a context, a method and an address, and
    [json.Unmarshal] into an [ErrorResponse]. *)
Record Platform : Type := mkPlatform {
  canonicalKey : string -> string;
  encodeQuery : list (string * list string) -> string;
  checkRequest : Context -> string -> string -> option error;
  unmarshalError : list byte -> option ErrorResponse.t
}.

(** A call returns, or panics on a nil pointer. *)
Inductive outcomeOf (A : Type) : Type :=
| Returns (a : A)
| Panics.
Arguments Returns {A} a.
Arguments Panics {A}.

(** What [Do] returns as its error: an [*APIError] or another error. *)
Inductive failure : Type :=
| Fault (e : error)
| Classified (e : APIError.t).

(** [m[key] = value] on a map held as the list of its entries. *)
Fixpoint mapSet (m : list (string * string)) (key value : string)
  : list (string * string) :=
  match m with
  | [] => [(key, value)]
  | (k, v) :: m' =>
    if String.eqb k key then (k, value) :: m' else (k, v) :: mapSet m' key value
  end.


(** [url.Values.Add]. *)
Fixpoint valuesAdd (q : list (string * list string)) (key value : string)
  : list (string * list string) :=
  match q with
  | [] => [(key, [value])]
  | (k, vs) :: q' =>
    if String.eqb k key then (k, (vs ++ [value])%list) :: q'
    else (k, vs) :: valuesAdd q' key value
  end.

Module RequestBuilder.

(** [RequestBuilder].  [clientMiddleware] is [b.client.middleware], the
    request-side list that [HTTPClient] above leaves out.  The functions
    below take as [env] what answers the calls of [b.client.httpClient.Do]
    for the request of this builder. *)
Record t : Type := mk {
  client : HTTPClient;
  clientMiddleware : list Middleware;
  method : string;
  path : string;
  body : option (list byte);
  headers : list (string * string);
  query : list (string * list string);
  ctx : Context;
  err : option error
}.

(** [(c *HTTPClient) NewRequest()]. *)
Definition NewRequest (c : HTTPClient) (mws : list Middleware) : t :=
  {| client := c; clientMiddleware := mws; method := ""; path := "";
     body := None; headers := []; query := []; ctx := background; err := None |}.

Definition setMethod (b : t) (m p : string) : t :=
  {| client := client b; clientMiddleware := clientMiddleware b;
     method := m; path := p; body := body b; headers := headers b;
     query := query b; ctx := ctx b; err := err b |}.

Definition GET (b : t) (p : string) : t := setMethod b "GET" p.
Definition POST (b : t) (p : string) : t := setMethod b "POST" p.
Definition PUT (b : t) (p : string) : t := setMethod b "PUT" p.
Definition DELETE (b : t) (p : string) : t := setMethod b "DELETE" p.
Definition PATCH (b : t) (p : string) : t := setMethod b "PATCH" p.

(** [WithHeader]. *)
Definition WithHeader (b : t) (key value : string) : t :=
  {| client := client b; clientMiddleware := clientMiddleware b;
     method := method b; path := path b; body := body b;
     headers := mapSet (headers b) key value;
     query := query b; ctx := ctx b; err := err b |}.

(** [WithBody]. *)
Definition WithBody (b : t) (data : list byte) : t :=
  {| client := client b; clientMiddleware := clientMiddleware b;
     method := method b; path := path b; body := Some data;
     headers := headers b; query := query b; ctx := ctx b; err := err b |}.

(** [WithQuery]. *)
Definition WithQuery (b : t) (key value : string) : t :=
  {| client := client b; clientMiddleware := clientMiddleware b;
     method := method b; path := path b; body := body b;
     headers := headers b; query := valuesAdd (query b) key value;
     ctx := ctx b; err := err b |}.

(** [WithContext]. *)
Definition WithContext (b : t) (c : Context) : t :=
  {| client := client b; clientMiddleware := clientMiddleware b;
     method := method b; path := path b; body := body b;
     headers := headers b; query := query b; ctx := c; err := err b |}.

(** [WithJSON]; [marshalled] is what [json.Marshal(v)] returns. *)
Definition WithJSON (b : t) (marshalled : list byte + error) : t :=
  match err b with
  | Some _ => b
  | None =>
    match marshalled with
    | inr e =>
      {| client := client b; clientMiddleware := clientMiddleware b;
         method := method b; path := path b; body := body b;
         headers := headers b; query := query b; ctx := ctx b;
         err := Some (Wrap "failed to marshal JSON" e) |}
    | inl data =>
      {| client := client b; clientMiddleware := clientMiddleware b;
         method := method b; path := path b; body := Some data;
         headers := mapSet (headers b) "Content-Type" "application/json";
         query := query b; ctx := ctx b; err := err b |}
    end
  end.

(** [WithHeaders] and [WithQueryParams]; the argument holds the entries of
    the map in the order the range visits them. *)
Definition WithHeaders (b : t) (hs : list (string * string)) : t :=
  {| client := client b; clientMiddleware := clientMiddleware b;
     method := method b; path := path b; body := body b;
     headers := fold_left (fun m kv => mapSet m (fst kv) (snd kv)) hs (headers b);
     query := query b; ctx := ctx b; err := err b |}.

Definition WithQueryParams (b : t) (params : list (string * string)) : t :=
  {| client := client b; clientMiddleware := clientMiddleware b;
     method := method b; path := path b; body := body b;
     headers := headers b;
     query := fold_left (fun q kv => valuesAdd q (fst kv) (snd kv)) params (query b);
     ctx := ctx b; err := err b |}.

(** A call of one of the builder's methods, and a chain of such calls. *)
Inductive call : Type :=
| CallGET (p : string) | CallPOST (p : string) | CallPUT (p : string)
| CallDELETE (p : string) | CallPATCH (p : string)
| CallWithContext (c : Context)
| CallWithJSON (marshalled : list byte + error)
| CallWithBody (data : list byte)
| CallWithHeader (key value : string)
| CallWithHeaders (hs : list (string * string))
| CallWithQuery (key value : string)
| CallWithQueryParams (params : list (string * string)).

Definition apply (b : t) (c : call) : t :=
  match c with
  | CallGET p => GET b p
  | CallPOST p => POST b p
  | CallPUT p => PUT b p
  | CallDELETE p => DELETE b p
  | CallPATCH p => PATCH b p
  | CallWithContext c => WithContext b c
  | CallWithJSON m => WithJSON b m
  | CallWithBody d => WithBody b d
  | CallWithHeader k v => WithHeader b k v
  | CallWithHeaders hs => WithHeaders b hs
  | CallWithQuery k v => WithQuery b k v
  | CallWithQueryParams ps => WithQueryParams b ps
  end.

Definition chain (b : t) (cs : list call) : t := fold_left apply cs b.

(** The address [execute] requests. *)
Definition fullURL (P : Platform) (b : t) : string :=
  let u := joinURL (baseURL (client b)) (path b) in
  if (0 <? List.length (query b))%nat
  then (u ++ "?" ++ encodeQuery P (query b))%string
  else u.

(** The request [execute] hands to the middleware. *)
Definition newRequest (P : Platform) (b : t) : Request :=
  setHeaders (canonicalKey P)
    {| Method := method b; URL := fullURL P b;
       ReqHeader := emptyHeader; ReqBody := body b |}
    (headers b).

(** The dispatch step of [execute]. *)
Definition dispatch (env : Env) (st : State) (b : t)
  : (option Response * option error) * State :=
  match retryConfig (client b) with
  | Some config => executeWithRetry env (ctx b) st config
  | None => Do env st
  end.

(** [execute].  With response middleware registered, a nil response that
    comes without an error is dereferenced by [applyResponseMiddleware]. *)
Definition execute (P : Platform) (env : Env) (st : State) (b : t)
  : outcomeOf ((option Response * option error) * State) :=
  match checkRequest P (ctx b) (method b) (fullURL P b) with
  | Some e => Returns ((None, Some (Wrap "failed to create request" e)), st)
  | None =>
    match applyMiddleware (clientMiddleware b) (newRequest P b) with
    | (_, Some e) => Returns ((None, Some e), st)
    | (_, None) =>
      let '((resp, err), st) := dispatch env st b in
      match err with
      | Some e => Returns ((None, Some e), st)
      | None =>
        match responseMiddleware (client b) with
        | [] => Returns ((resp, None), st)
        | steps =>
          match resp with
          | None => Panics
          | Some r =>
            let run := applyResponseMiddleware steps r in
            match fault run with
            | Some e => Returns ((None, Some e), st)
            | None => Returns ((Some (envelope run), None), st)
            end
          end
        end
      end
    end
  end.

(** [DoWithResponse]. *)
Definition DoWithResponse (P : Platform) (env : Env) (st : State) (b : t)
  : outcomeOf ((option Response * option error) * State) :=
  match err b with
  | Some e => Returns ((None, Some e), st)
  | None => execute P env st b
  end.

(** [Do].  [result] is the destination: [None] for nil, else what
    [json.NewDecoder(resp.Body).Decode(result)] reports on the body.  A nil
    response that comes without an error is dereferenced. *)
Definition Do (P : Platform) (env : Env) (st : State) (b : t)
    (result : option (ReadCloser -> option error))
  : outcomeOf (option failure * State) :=
  match err b with
  | Some e => Returns (Some (Fault e), st)
  | None =>
    match execute P env st b with
    | Panics => Panics
    | Returns ((_, Some e), st) => Returns (Some (Fault e), st)
    | Returns ((None, None), _) => Panics
    | Returns ((Some resp, None), st) =>
      match classify (unmarshalError P) resp with
      | Some apiErr => Returns (Some (Classified apiErr), st)
      | None =>
        match result with
        | None => Returns (None, st)
        | Some decode =>
          match decode (Body resp) with
          | Some e => Returns (Some (Fault (Wrap "failed to decode response" e)), st)
          | None => Returns (None, st)
          end
        end
      end
    end
  end.

End RequestBuilder.

(* ================================================================== *)
(** ** debug.go *)

(** [printBody] as its two callers use it, with [bodyPtr] pointing at the
    field that holds [body]: what the writer has received, the body the field
    holds afterwards, and the error.  Write errors are ignored by the
    source. *)
Definition printBody (w : list byte) (body : ReadCloser)
  : list byte * ReadCloser * option error :=
  let '(bodyBytes, err, drained) := ReadAll body in
  match err with
  | Some e => (w, drained, Some (Wrap "failed to read body for debug" e))
  | None =>
    let restored := NopCloser bodyBytes in
    if (0 <? List.length bodyBytes)%nat
    then ((w ++ bodyBytes ++ [x0a] ++ [x0a])%list, restored, None)
    else (w, restored, None)
  end.

(** A platform for the examples: keys are taken as canonical, the query is
    not encoded, every request is accepted. *)
Definition samplePlatform : Platform :=
  {| canonicalKey := fun k => k;
     encodeQuery := fun _ => ""%string;
     checkRequest := fun _ _ _ => None;
     unmarshalError := unmarshalFlat |}.

Definition sampleClient (retry : option RetryConfig) : HTTPClient :=
  {| baseURL := "https://api.example.com"; httpClient := CustomDoer (transport always503);
     retryConfig := retry; responseMiddleware := [] |}.

Definition sampleRequest : Request :=
  {| Method := "GET"; URL := "https://api.example.com/v1";
     ReqHeader := emptyHeader; ReqBody := None |}.

(** [client.GET("/v1/users")] on a client with the given retry policy and
    request middleware. *)
Definition sampleBuilder (retry : option RetryConfig) (mws : list Middleware)
  : RequestBuilder.t :=
  RequestBuilder.GET (RequestBuilder.NewRequest (sampleClient retry) mws) "/v1/users".


Definition response200 : Response :=
  {| StatusCode := 200; Header := [];
     Body := TransportBody [x6f; x6b] None false |}.

Definition response404 : Response :=
  {| StatusCode := 404; Header := [];
     Body := TransportBody [x6e; x6f] None false |}.

(** A server that answers 503 twice and 200 from then on. *)
Definition flaky : Env :=
  {| transport := fun n =>
       {| took := 5 * Millisecond;
          outcome := (Some (if (n <? 2)%nat then response503 else response200), None) |};
     draw := fun _ => 12345;
     timerWins := fun _ => true |}.

(** A server that answers every request with 404. *)
Definition always404 : Env :=
  {| transport := fun _ => {| took := 5 * Millisecond;
                              outcome := (Some response404, None) |};
     draw := fun _ => 12345;
     timerWins := fun _ => true |}.

(* ================================================================== *)
(** * Properties *)

(** ** The default retry predicate *)

(** C3.  The default retry predicate answers true exactly when a transport
    fault occurred, or no envelope was produced, or the status is at least
    500, or the status is 429; so with an envelope and no fault it answers
    false for 200, for 404 and for every other status below 500 that is not
    429. *)
Theorem defaultShouldRetry_iff (resp : option Response) (err : option error) :
  (defaultShouldRetry resp err = true <->
     err <> None \/ resp = None \/
     exists r, resp = Some r /\ (500 <= StatusCode r \/ StatusCode r = 429))
  /\
  (forall r, resp = Some r -> err = None ->
     (StatusCode r = 200 \/ StatusCode r = 404 \/
      (StatusCode r < 500 /\ StatusCode r <> 429)) ->
     defaultShouldRetry resp err = false).
Proof.
  unfold defaultShouldRetry, StatusTooManyRequests.
  split.
  - destruct err as [e|].
    + split; [intros _; left; discriminate | reflexivity].
    + destruct resp as [r|].
      * destruct (Z.geb_spec (StatusCode r) 500) as [Hge|Hlt].
        { split; [intros _ | reflexivity].
          right; right; exists r; split; [reflexivity | left; lia]. }
        destruct (Z.eqb_spec (StatusCode r) 429) as [Heq|Hne].
        { split; [intros _ | reflexivity].
          right; right; exists r; split; [reflexivity | right; exact Heq]. }
        split; [discriminate|].
        intros [H | [H | [r' [Hr [H | H]]]]].
        -- congruence.
        -- discriminate.
        -- injection Hr as <-. lia.
        -- injection Hr as <-. contradiction.
      * split; [intros _; right; left; reflexivity | reflexivity].
  - intros r -> -> Hs.
    destruct (Z.geb_spec (StatusCode r) 500) as [Hge|Hlt]; [lia|].
    destruct (Z.eqb_spec (StatusCode r) 429) as [Heq|Hne]; [lia|].
    reflexivity.
Qed.

(** ** Transport defaults *)

(** The transport of the client [NewClient] returns when no option replaces
    the [Doer]. *)
Lemma NewClient_transport (config : Config.t) :
  httpClient (NewClient (Some config) []) =
  StdClient (Config.Timeout config) (newTransport config).
Proof. reflexivity. Qed.

(** C8, as stated, fails: with the pool settings unset the transport's total
    of idle connections stays 0, it does not become 100. *)
Lemma MaxIdleConns_not_defaulted :
  httpClient (NewClient (Some unsetPool) []) =
    StdClient (30 * Second) (newTransport unsetPool) /\
  ~ (Transport.MaxIdleConns (newTransport unsetPool) = 100 /\
     Transport.MaxIdleConnsPerHost (newTransport unsetPool) = 100 /\
     Transport.IdleConnTimeout (newTransport unsetPool) = 90 * Second).
Proof.
  split; [reflexivity|].
  intros [H _]. vm_compute in H. discriminate.
Qed.

(** C8, amended.  At construction the per-destination maximum of idle
    connections and the idle timeout become 100 and 90 seconds when the
    configuration leaves them zero and keep the configured value otherwise;
    the total maximum of idle connections is the configured value as it is,
    zero included.  A nil configuration gives 0, 100 and 90 seconds. *)
Theorem NewClient_pool_defaults (config : Config.t) :
  let t := newTransport config in
  httpClient (NewClient (Some config) []) = StdClient (Config.Timeout config) t /\
  Transport.MaxIdleConns t = Config.MaxIdleConns config /\
  Transport.MaxIdleConnsPerHost t =
    (if Config.MaxIdleConnsPerHost config =? 0 then 100
     else Config.MaxIdleConnsPerHost config) /\
  Transport.IdleConnTimeout t =
    (if Config.IdleConnTimeout config =? 0 then 90 * Second
     else Config.IdleConnTimeout config) /\
  httpClient (NewClient None []) =
    StdClient (30 * Second)
      {| Transport.MaxIdleConns := 0; Transport.MaxIdleConnsPerHost := 100;
         Transport.IdleConnTimeout := 90 * Second |}.
Proof.
  cbv zeta. repeat split.
Qed.

(** ** The backoff calculator *)

Lemma wrap64_small (z : Z) : - 2 ^ 63 <= z < 2 ^ 63 -> wrap64 z = z.
Proof.
  intros H. unfold wrap64.
  rewrite Z.mod_small by lia. lia.
Qed.

Lemma calculateBackoff_fits (r attempt waitTime maxWaitTime : Z) :
  0 <= attempt <= 62 ->
  0 <= waitTime ->
  0 <= maxWaitTime < 2 ^ 63 ->
  waitTime * 2 ^ attempt < 2 ^ 63 ->
  let b := Z.min maxWaitTime (waitTime * 2 ^ attempt) in
  let w := calculateBackoff r attempt waitTime maxWaitTime in
  Z.quot b 2 <= w /\ (0 < b -> w < b) /\ 0 <= w <= maxWaitTime /\ (b = 0 -> w = 0).
Proof.
  intros Ha Hw Hm Hfit b w.
  assert (Hpow : 0 < 2 ^ attempt) by (apply Z.pow_pos_nonneg; lia).
  assert (Hprod : 0 <= waitTime * 2 ^ attempt) by nia.
  assert (Hb : 0 <= b) by (unfold b; lia).
  assert (Hbm : b <= maxWaitTime) by (unfold b; lia).
  assert (Hw_eq : w = Z.quot b 2 +
            (if Z.quot b 2 >? 0 then Int63n r (Z.quot b 2) else Z.quot b 2)).
  { unfold w, calculateBackoff, pow2Duration. cbv zeta.
    replace (attempt <? 0) with false by (symmetry; apply Z.ltb_ge; lia).
    replace (attempt <=? 62) with true by (symmetry; apply Z.leb_le; lia).
    rewrite (wrap64_small (waitTime * 2 ^ attempt)) by lia.
    assert (Hcap : (if waitTime * 2 ^ attempt >? maxWaitTime
                    then maxWaitTime else waitTime * 2 ^ attempt) = b).
    { unfold b. destruct (Z.gtb_spec (waitTime * 2 ^ attempt) maxWaitTime); lia. }
    rewrite Hcap.
    assert (Hq : 0 <= Z.quot b 2 /\ 2 * Z.quot b 2 <= b).
    { rewrite Z.quot_div_nonneg by lia. split.
      - apply Z.div_pos; lia.
      - apply Z.mul_div_le; lia. }
    apply wrap64_small.
    destruct (Z.gtb_spec (Z.quot b 2) 0) as [Hpos|Hnp].
    - unfold Int63n.
      pose proof (Z.mod_pos_bound r (Z.quot b 2) Hpos). lia.
    - lia. }
  assert (Hq : Z.quot b 2 = b / 2) by (apply Z.quot_div_nonneg; lia).
  rewrite Hw_eq, Hq.
  destruct (Z.gtb_spec (b / 2) 0) as [Hpos|Hnp].
  - unfold Int63n.
    pose proof (Z.mod_pos_bound r (b / 2) Hpos) as Hr.
    assert (2 * (b / 2) <= b) by (apply Z.mul_div_le; lia).
    repeat split; lia.
  - assert (b / 2 = 0).
    { assert (0 <= b / 2) by (apply Z.div_pos; lia). lia. }
    repeat split; lia.
Qed.

(** X6.  Where the exponential fits in 64 bits the calculator does what its
    comment says: with [b] the capped exponential, the wait is at least
    [b/2], below [b] (for [b > 0]), never negative and never above the cap,
    and it is 0 when [b] is 0. *)
Lemma calculateBackoff_in_range (r attempt waitTime maxWaitTime : Z) :
  0 <= attempt <= 62 ->
  0 <= waitTime ->
  0 <= maxWaitTime < 2 ^ 63 ->
  waitTime * 2 ^ attempt < 2 ^ 63 ->
  let b := Z.min maxWaitTime (waitTime * 2 ^ attempt) in
  let w := calculateBackoff r attempt waitTime maxWaitTime in
  Z.quot b 2 <= w /\ (0 < b -> w < b) /\ 0 <= w <= maxWaitTime /\ (b = 0 -> w = 0).
Proof. exact (calculateBackoff_fits r attempt waitTime maxWaitTime). Qed.

(** The examples of section 8, for a cap of 10s and a base of 200ms:
    attempt 0 waits in [100ms, 200ms), attempt 5 in [3.2s, 6.4s). *)
Lemma calculateBackoff_default_examples (r : Z) :
  100 * Millisecond <= calculateBackoff r 0 DefaultRetryWaitTime DefaultRetryMaxWaitTime
    < 200 * Millisecond /\
  3200 * Millisecond <= calculateBackoff r 5 DefaultRetryWaitTime DefaultRetryMaxWaitTime
    < 6400 * Millisecond.
Proof.
  pose proof (calculateBackoff_fits r 0 DefaultRetryWaitTime DefaultRetryMaxWaitTime)
    as H0.
  pose proof (calculateBackoff_fits r 5 DefaultRetryWaitTime DefaultRetryMaxWaitTime)
    as H5.
  unfold DefaultRetryWaitTime, DefaultRetryMaxWaitTime, Millisecond, Second in *.
  cbv zeta in H0, H5.
  change (Z.min (10 * 1000000000) (200 * 1000000 * 2 ^ 0)) with 200000000 in H0.
  change (Z.min (10 * 1000000000) (200 * 1000000 * 2 ^ 5)) with 6400000000 in H5.
  change (Z.quot 200000000 2) with 100000000 in H0.
  change (Z.quot 6400000000 2) with 3200000000 in H5.
  change (2 ^ 0) with 1 in H0. change (2 ^ 5) with 32 in H5.
  change (2 ^ 63) with 9223372036854775808 in H0, H5.
  specialize (H0 ltac:(lia) ltac:(lia) ltac:(lia) ltac:(lia)).
  specialize (H5 ltac:(lia) ltac:(lia) ltac:(lia) ltac:(lia)).
  lia.
Qed.

(** C2 fails on the code as it is: at attempt 36 with the default base wait
    (200ms) and cap (10s), [waitTime * 2^36] leaves the 64-bit range and wraps
    to a negative number, which the cap test lets through: the wait comes out
    negative, whatever the random source yields. *)
Theorem calculateBackoff_wraps_negative (r : Z) :
  calculateBackoff r 36 DefaultRetryWaitTime DefaultRetryMaxWaitTime
    = -4702848726509551616
  /\ DefaultRetryWaitTime * 2 ^ 36 = 13743895347200000000
  /\ Z.min DefaultRetryMaxWaitTime (DefaultRetryWaitTime * 2 ^ 36) = 10 * Second.
Proof.
  repeat split.
Qed.

(** ** The retry engine *)

Lemma attemptOutcome_first (env : Env) (st : State) :
  outcome (transport env (calls st)) = attemptOutcome env st 0.
Proof. unfold attemptOutcome. rewrite Nat.add_0_r. reflexivity. Qed.

Lemma attemptOutcome_next (env : Env) (st st1 : State) (k : nat) :
  calls st1 = S (calls st) ->
  attemptOutcome env st1 k = attemptOutcome env st (S k).
Proof.
  intros H. unfold attemptOutcome. rewrite H.
  f_equal. f_equal. lia.
Qed.

Lemma allRetryable_next (env : Env) (config : RetryConfig) (st st1 : State) (n : nat) :
  calls st1 = S (calls st) ->
  allRetryable env config st (S n) ->
  allRetryable env config st1 n.
Proof.
  intros H Hall k Hk.
  rewrite (attemptOutcome_next env st st1 k H).
  apply Hall. lia.
Qed.

(** A wait under a context that never fires runs to the timer and makes no
    call. *)
Lemma waitWithBackoff_never_done (env : Env) (ctx : Context) (st : State)
    (attempt : Z) (config : RetryConfig) :
  doneAt ctx = None ->
  exists st', waitWithBackoff env ctx st attempt config = (None, st')
              /\ calls st' = calls st.
Proof.
  intros H. unfold waitWithBackoff. rewrite H.
  eexists; split; reflexivity.
Qed.

Lemma afterLoop_exhaustedResult (config : RetryConfig)
    (r : option Response) (e : option error) :
  afterLoop config (option_map closeBody r) e = exhaustedResult config (r, e).
Proof. destruct e, r; reflexivity. Qed.

(** The loop run to exhaustion: with no cancellation and every remaining
    attempt judged retryable, all [todo] iterations take place, each with one
    send, and the code after the loop sees what the last attempt left. *)
Lemma retryLoop_exhausts (env : Env) (ctx : Context) (config : RetryConfig) :
  doneAt ctx = None ->
  forall (todo : nat) (attempt : Z) (st : State)
         (resp : option Response) (lastErr : option error),
  allRetryable env config st todo ->
  exists st',
    retryLoop env ctx config todo attempt st resp lastErr =
      (match todo with
       | O => afterLoop config resp lastErr
       | S k => exhaustedResult config (attemptOutcome env st k)
       end, st')
    /\ calls st' = (calls st + todo)%nat.
Proof.
  intros Hctx todo.
  induction todo as [|todo IH]; intros attempt st resp lastErr Hall.
  - exists st. split; [reflexivity | lia].
  - cbn [retryLoop]. unfold Do.
    pose proof (Hall 0%nat ltac:(lia)) as H0.
    rewrite <- attemptOutcome_first in H0.
    destruct (outcome (transport env (calls st))) as [r0 e0] eqn:Hout.
    cbn [fst snd] in H0. rewrite H0. cbn [negb].
    set (st1 := {| clock := clock st + took (transport env (calls st));
                   calls := S (calls st) |}).
    assert (Hcont : forall st2, calls st2 = S (calls st) ->
              exists st',
                retryLoop env ctx config todo (attempt + 1) st2
                          (option_map closeBody r0) e0 =
                  (exhaustedResult config (attemptOutcome env st todo), st')
                /\ calls st' = (calls st + S todo)%nat).
    { intros st2 Hst2.
      destruct (IH (attempt + 1) st2 (option_map closeBody r0) e0
                   (allRetryable_next env config st st2 todo Hst2 Hall))
        as [st' [Hrun Hcalls]].
      exists st'. split; [|lia].
      rewrite Hrun. f_equal.
      destruct todo as [|k].
      - rewrite afterLoop_exhaustedResult, <- attemptOutcome_first, Hout.
        reflexivity.
      - rewrite (attemptOutcome_next env st st2 k Hst2). reflexivity. }
    destruct (attempt <? MaxAttempts config - 1).
    + destruct (waitWithBackoff_never_done env ctx st1 attempt config Hctx)
        as [st2 [Hwait Hst2]].
      rewrite Hwait. apply Hcont. exact Hst2.
    + apply Hcont. reflexivity.
Qed.

(** The same for a whole execution under a policy of at least one attempt. *)
Lemma executeWithRetry_exhausts
    (env : Env) (ctx : Context) (st : State) (config : RetryConfig) :
  let config' := applyRetryDefaults config in
  let n := Z.to_nat (MaxAttempts config') in
  doneAt ctx = None ->
  1 <= MaxAttempts config' ->
  allRetryable env config' st n ->
  exists st',
    executeWithRetry env ctx st config =
      (exhaustedResult config' (attemptOutcome env st (n - 1)), st')
    /\ calls st' = (calls st + n)%nat.
Proof.
  intros config' n Hctx Hn Hall. unfold executeWithRetry. fold config' n.
  destruct (retryLoop_exhausts env ctx config' Hctx n 0 st None None Hall)
    as [st' [Hrun Hcalls]].
  exists st'. split; [|exact Hcalls].
  rewrite Hrun. f_equal.
  destruct n as [|k] eqn:Hk; [lia|].
  replace (S k - 1)%nat with k by lia. reflexivity.
Qed.




(** C10.  A negative [MaxAttempts] is left as it is by the defaults (only 0
    becomes 3), and [executeWithRetry] then makes no send at all and returns
    neither an envelope nor a fault. *)
Theorem negative_MaxAttempts_sends_nothing
    (env : Env) (ctx : Context) (st : State) (config : RetryConfig) :
  MaxAttempts config < 0 ->
  MaxAttempts (applyRetryDefaults config) = MaxAttempts config /\
  MaxAttempts (applyRetryDefaults
                 {| MaxAttempts := 0; WaitTime := WaitTime config;
                    MaxWaitTime := MaxWaitTime config;
                    ShouldRetry := ShouldRetry config |}) = 3 /\
  executeWithRetry env ctx st config = ((None, None), st).
Proof.
  intros Hneg.
  assert (Hkeep : MaxAttempts (applyRetryDefaults config) = MaxAttempts config).
  { unfold applyRetryDefaults. cbn [MaxAttempts].
    destruct (Z.eqb_spec (MaxAttempts config) 0); [lia | reflexivity]. }
  split; [exact Hkeep|]. split; [reflexivity|].
  unfold executeWithRetry. rewrite Hkeep.
  replace (Z.to_nat (MaxAttempts config)) with 0%nat by lia.
  reflexivity.
Qed.

Lemma negative_MaxAttempts_sends_nothing_witness :
  MaxAttempts negativeAttempts < 0 /\
  executeWithRetry always503 background start negativeAttempts = ((None, None), start).
Proof.
  split; [reflexivity|].
  apply (negative_MaxAttempts_sends_nothing always503 background start negativeAttempts).
  reflexivity.
Defined.



(** A backoff that is not positive leaves nothing to wait for: with the
    signal already fired, timer and cancellation are ready together and the
    pick of the select decides. *)
Lemma waitWithBackoff_tie
    (env : Env) (ctx : Context) (st : State) (attempt : Z)
    (config : RetryConfig) (d : Z) :
  doneAt ctx = Some d ->
  d <= clock st ->
  calculateBackoff (draw env (Z.to_nat attempt)) attempt
                   (WaitTime config) (MaxWaitTime config) <= 0 ->
  waitWithBackoff env ctx st attempt config =
    ((if timerWins env (Z.to_nat attempt) then None else Some (cause ctx)),
     {| clock := clock st; calls := calls st |}).
Proof.
  intros Hdone Hfired Hzero.
  unfold waitWithBackoff, ctxErr. rewrite Hdone.
  replace (Z.max (clock st) d) with (clock st) by lia.
  replace (Z.max 0 (calculateBackoff (draw env (Z.to_nat attempt)) attempt
                      (WaitTime config) (MaxWaitTime config))) with 0 by lia.
  rewrite Z.add_0_r, Z.ltb_irrefl.
  replace (d <=? clock st) with true by (symmetry; apply Z.leb_le; lia).
  destruct (timerWins env (Z.to_nat attempt)); reflexivity.
Qed.



(** ** The response middleware buffering protocol *)

Lemma ReadAll_freshView (data : list byte) :
  ReadAll (freshView data) = (data, None, NopCloser []).
Proof. reflexivity. Qed.

(** The loop, entered with a fresh view installed: every step finds a
    fresh view over the buffered bytes, a fresh view is in place when the
    loop is left (after a fault or after the last step), the steps run until
    the first fault, and that fault is the one reported. *)
Lemma middlewareLoop_fresh (data : list byte) (steps : list ResponseMiddleware) :
  forall resp,
  Body resp = freshView data ->
  let run := middlewareLoop data steps resp in
  Forall (fun r => Body r = freshView data) (handed run) /\
  Body (envelope run) = freshView data /\
  (List.length (handed run) <= List.length steps)%nat /\
  (fault run = None -> List.length (handed run) = List.length steps) /\
  (forall e, fault run = Some e ->
     exists mw r inner,
       nth_error steps (List.length (handed run) - 1) = Some mw /\
       nth_error (handed run) (List.length (handed run) - 1) = Some r /\
       snd (mw r) = Some inner /\
       e = Wrap "response middleware error" inner).
Proof.
  induction steps as [|mw steps IH]; intros resp Hfresh; cbv zeta.
  - cbn. repeat split; auto. intros e He. discriminate.
  - cbn [middlewareLoop].
    destruct (mw resp) as [resp' err] eqn:Hmw.
    destruct err as [e0|].
    + cbn [handed envelope fault List.length]. repeat split.
      * constructor; [exact Hfresh | constructor].
      * lia.
      * discriminate.
      * intros e He. injection He as <-.
        exists mw, resp, e0. cbn. rewrite Hmw. repeat split.
    + specialize (IH (setBody resp' (freshView data)) eq_refl). cbv zeta in IH.
      destruct IH as [Hall [Hend [Hle [Hok Hfault]]]].
      cbn [handed envelope fault List.length]. repeat split.
      * constructor; assumption.
      * exact Hend.
      * lia.
      * intros Hnone. rewrite (Hok Hnone). reflexivity.
      * intros e He.
        destruct (Hfault e He) as [mw' [r [inner [Hs [Hh [Hr He']]]]]].
        exists mw', r, inner.
        assert (Hpos : (0 < List.length (handed
                   (middlewareLoop data steps (setBody resp' (freshView data)))))%nat).
        { destruct (handed (middlewareLoop data steps
                              (setBody resp' (freshView data)))) as [|h hs] eqn:Hhs.
          - cbn in Hh. discriminate.
          - cbn. lia. }
        replace (S (List.length (handed (middlewareLoop data steps
                                      (setBody resp' (freshView data))))) - 1)%nat
          with (S (List.length (handed (middlewareLoop data steps
                                     (setBody resp' (freshView data)))) - 1))
          by lia.
        cbn [nth_error]. repeat split; assumption.
Qed.



(** ** The error classifier *)

Lemma firstNonEmpty_priority (m d e : string) :
  firstNonEmpty [m; d; e] =
    if negb (String.eqb m "") then m
    else if negb (String.eqb d "") then d
    else if negb (String.eqb e "") then e
    else "".
Proof. reflexivity. Qed.

(** C6.  For a response with a status outside [200, 300) whose body can be
    read, the failure is a Structured Error that carries the status code and
    the raw body bytes, and whose message is the first non-empty of the JSON
    fields [message], [detail], [error] when the body parses and one of them
    is non-empty, and the raw body text otherwise. *)
Theorem handleErrorResponse_message
    (unmarshal : list byte -> option ErrorResponse.t)
    (resp : Response) (body : list byte) (drained : ReadCloser) :
  StatusCode resp < 200 \/ 300 <= StatusCode resp ->
  ReadAll (Body resp) = (body, None, drained) ->
  classify unmarshal resp =
    Some {| APIError.StatusCode := StatusCode resp;
            APIError.Message := classifierMessage unmarshal body;
            APIError.Body := body |}.
Proof.
  intros Hstatus Hread.
  unfold classify.
  replace ((StatusCode resp <? 200) || (StatusCode resp >=? 300)) with true.
  2:{ symmetry. apply orb_true_iff.
      destruct Hstatus as [H | H];
        [left; apply Z.ltb_lt; exact H | right; apply Z.geb_le; exact H]. }
  f_equal. unfold handleErrorResponse, classifierMessage.
  rewrite Hread.
  destruct (unmarshal body) as [er|]; [|reflexivity].
  rewrite firstNonEmpty_priority.
  destruct (String.eqb (ErrorResponse.Message er) "") eqn:Hm; cbn [negb].
  2:{ rewrite Hm. reflexivity. }
  destruct (String.eqb (ErrorResponse.Detail er) "") eqn:Hd; cbn [negb].
  2:{ rewrite Hd. reflexivity. }
  destruct (String.eqb (ErrorResponse.Error er) "") eqn:He; cbn [negb].
  2:{ rewrite He. reflexivity. }
  reflexivity.
Qed.

(** The examples of section 8, with the decoder for flat objects. *)
Lemma handleErrorResponse_message_witness :
  classify unmarshalFlat (errorWith 404 bodyErrorMessage) =
    Some {| APIError.StatusCode := 404; APIError.Message := "m";
            APIError.Body := bodyErrorMessage |} /\
  classify unmarshalFlat (errorWith 500 bodyErrorOnly) =
    Some {| APIError.StatusCode := 500; APIError.Message := "e";
            APIError.Body := bodyErrorOnly |} /\
  classify unmarshalFlat (errorWith 502 bodyPlain) =
    Some {| APIError.StatusCode := 502; APIError.Message := "upstream unavailable";
            APIError.Body := bodyPlain |}.
Proof.
  assert (Hstatus : forall code body, 300 <= code ->
            StatusCode (errorWith code body) < 200 \/
            300 <= StatusCode (errorWith code body)).
  { intros code body H. right. exact H. }
  pose proof (handleErrorResponse_message unmarshalFlat
                (errorWith 404 bodyErrorMessage) bodyErrorMessage
                (TransportBody [] None false)
                (Hstatus 404 bodyErrorMessage ltac:(discriminate)) eq_refl) as H1.
  pose proof (handleErrorResponse_message unmarshalFlat
                (errorWith 500 bodyErrorOnly) bodyErrorOnly
                (TransportBody [] None false)
                (Hstatus 500 bodyErrorOnly ltac:(discriminate)) eq_refl) as H2.
  pose proof (handleErrorResponse_message unmarshalFlat
                (errorWith 502 bodyPlain) bodyPlain
                (TransportBody [] None false)
                (Hstatus 502 bodyPlain ltac:(discriminate)) eq_refl) as H3.
  vm_compute in H1, H2, H3 |- *.
  split; [exact H1 | split; [exact H2 | exact H3]].
Defined.

(** ** The URL join *)

Lemma substring_all (s : string) : substring 0 (String.length s) s = s.
Proof. induction s as [|c s IH]; cbn; [reflexivity | rewrite IH; reflexivity]. Qed.

Lemma length_snoc_slash (b : string) :
  String.length (b ++ "/") = S (String.length b).
Proof. induction b as [|c b IH]; cbn; [reflexivity | rewrite IH; reflexivity]. Qed.

Lemma substring_last_slash (b : string) :
  substring (String.length b) 1 (b ++ "/") = "/"%string.
Proof. induction b as [|c b IH]; cbn; [reflexivity | exact IH]. Qed.

Lemma substring_init_slash (b : string) :
  substring 0 (String.length b) (b ++ "/") = b.
Proof. induction b as [|c b IH]; cbn; [reflexivity | rewrite IH; reflexivity]. Qed.

Lemma TrimSuffix_slash (b : string) : TrimSuffix (b ++ "/") "/" = b.
Proof.
  unfold TrimSuffix, HasSuffix.
  rewrite length_snoc_slash. cbn [String.length].
  replace (S (String.length b) - 1)%nat with (String.length b) by lia.
  rewrite substring_last_slash.
  cbn. apply substring_init_slash.
Qed.

Lemma TrimPrefix_slash (p : string) : TrimPrefix ("/" ++ p) "/" = p.
Proof.
  unfold TrimPrefix, HasPrefix. cbn.
  rewrite Nat.sub_0_r.
  destruct p as [|c p]; [reflexivity|].
  cbn [prefix]. apply substring_all.
Qed.

(** X7.  Where the base ends with at most one slash and the path starts with at
    most one, the join is what its comment says: the two parts with exactly
    one slash between them. *)
Lemma joinURL_at_most_one_slash (b p s1 s2 : string) :
  HasSuffix b "/" = false ->
  HasPrefix p "/" = false ->
  s1 = ""%string \/ s1 = "/"%string ->
  s2 = ""%string \/ s2 = "/"%string ->
  (s2 ++ p)%string <> ""%string ->
  joinURL (b ++ s1) (s2 ++ p) = (b ++ "/" ++ p)%string.
Proof.
  intros Hb Hp Hs1 Hs2 Hne.
  unfold joinURL.
  destruct (String.eqb_spec (s2 ++ p) "") as [Heq|_]; [contradiction|].
  assert (Hbase : TrimSuffix (b ++ s1) "/" = b).
  { destruct Hs1 as [-> | ->].
    - replace (b ++ "")%string with b.
      + unfold TrimSuffix. rewrite Hb. reflexivity.
      + clear. induction b as [|c b IH]; cbn; [reflexivity | rewrite <- IH; reflexivity].
    - apply TrimSuffix_slash. }
  assert (Hpath : TrimPrefix (s2 ++ p) "/" = p).
  { destruct Hs2 as [-> | ->].
    - cbn [append]. unfold TrimPrefix. rewrite Hp. reflexivity.
    - apply TrimPrefix_slash. }
  rewrite Hbase, Hpath. reflexivity.
Qed.

(** C5 fails on the code as it is: only one slash is trimmed on each side,
    so a base that ends with two slashes, or a path that starts with two,
    keeps two slashes at the join.  An empty path gives the base unchanged. *)
Theorem joinURL_keeps_doubled_slash :
  joinURL "https://api.example.com//" "v1" = "https://api.example.com//v1"%string /\
  joinURL "https://api.example.com" "//v1" = "https://api.example.com//v1"%string /\
  joinedByOneSlash "https://api.example.com//" "v1" = "https://api.example.com/v1"%string /\
  joinedByOneSlash "https://api.example.com" "//v1" = "https://api.example.com/v1"%string /\
  (forall base, joinURL base "" = base).
Proof.
  repeat split.
Qed.

(* ================================================================== *)
(** * Further properties of the code *)

(** ** retry.go *)

(** X1.  Applying the retry defaults twice is applying them once; afterwards
    no field is zero, a field that was not zero keeps its value, and the
    custom predicate is untouched. *)
Theorem applyRetryDefaults_idempotent (config : RetryConfig) :
  let c := applyRetryDefaults config in
  applyRetryDefaults c = c /\
  MaxAttempts c <> 0 /\ WaitTime c <> 0 /\ MaxWaitTime c <> 0 /\
  (MaxAttempts config <> 0 -> MaxAttempts c = MaxAttempts config) /\
  (WaitTime config <> 0 -> WaitTime c = WaitTime config) /\
  (MaxWaitTime config <> 0 -> MaxWaitTime c = MaxWaitTime config) /\
  ShouldRetry c = ShouldRetry config.
Proof.
  destruct config as [n w m p].
  unfold applyRetryDefaults, DefaultRetryAttempts, DefaultRetryWaitTime,
    DefaultRetryMaxWaitTime, Millisecond, Second.
  cbn [MaxAttempts WaitTime MaxWaitTime ShouldRetry].
  destruct (Z.eqb_spec n 0) as [Hn|Hn];
    destruct (Z.eqb_spec w 0) as [Hw|Hw];
    destruct (Z.eqb_spec m 0) as [Hm|Hm];
    cbn [MaxAttempts WaitTime MaxWaitTime ShouldRetry];
    repeat match goal with
           | |- context [?x =? 0] =>
             let H := fresh in destruct (Z.eqb_spec x 0) as [H|H]; try lia
           end;
    repeat split; try reflexivity; try lia; try assumption.
Qed.

Lemma waitWithBackoff_calls (env : Env) (ctx : Context) (st : State)
    (attempt : Z) (config : RetryConfig) :
  calls (snd (waitWithBackoff env ctx st attempt config)) = calls st.
Proof.
  unfold waitWithBackoff.
  destruct (doneAt ctx) as [d|]; [|reflexivity].
  repeat match goal with
         | |- context [if ?c then _ else _] => destruct c
         end; reflexivity.
Qed.

(** X2.  A backoff wait makes no send; it lasts no longer than the backoff
    (and no time at all for a backoff that is not positive); it returns nil or
    what the context reports, and under a context that never fires it returns
    nil after the whole backoff. *)
Theorem waitWithBackoff_effect
    (env : Env) (ctx : Context) (st : State) (attempt : Z) (config : RetryConfig) :
  let backoff := calculateBackoff (draw env (Z.to_nat attempt)) attempt
                                  (WaitTime config) (MaxWaitTime config) in
  let err := fst (waitWithBackoff env ctx st attempt config) in
  let st' := snd (waitWithBackoff env ctx st attempt config) in
  calls st' = calls st /\
  clock st <= clock st' <= clock st + Z.max 0 backoff /\
  (err = None \/ err = Some (cause ctx)) /\
  (doneAt ctx = None -> err = None /\ clock st' = clock st + Z.max 0 backoff).
Proof.
  cbv zeta. unfold waitWithBackoff, ctxErr.
  set (b := calculateBackoff _ _ _ _).
  destruct (doneAt ctx) as [d|] eqn:Hd.
  - replace (d <=? Z.max (clock st) d) with true
      by (symmetry; apply Z.leb_le; lia).
    destruct (Z.ltb_spec (Z.max (clock st) d) (clock st + Z.max 0 b)) as [H1|H1];
      [|destruct (Z.ltb_spec (clock st + Z.max 0 b) (Z.max (clock st) d)) as [H2|H2];
        [|destruct (timerWins env (Z.to_nat attempt))]];
      cbn [fst snd calls clock]; repeat split; try lia; try discriminate;
      try (left; reflexivity); try (right; reflexivity).
  - cbn [fst snd calls clock]. repeat split; try lia. left. reflexivity.
Qed.

Lemma retryLoop_calls_bound (env : Env) (ctx : Context) (config : RetryConfig)
    (todo : nat) :
  forall (attempt : Z) (st : State) (resp : option Response) (lastErr : option error),
  let st' := snd (retryLoop env ctx config todo attempt st resp lastErr) in
  (calls st <= calls st' <= calls st + todo)%nat /\
  (todo <> 0%nat -> (calls st < calls st')%nat).
Proof.
  induction todo as [|todo IH]; intros attempt st resp lastErr; cbv zeta.
  - cbn. split; [lia | intros H; contradiction].
  - cbn [retryLoop]. unfold Do.
    destruct (outcome (transport env (calls st))) as [r0 e0].
    set (st1 := {| clock := clock st + took (transport env (calls st));
                   calls := S (calls st) |}).
    destruct (shouldRetryOf config r0 e0); cbn [negb].
    2:{ cbn. split; [lia | intros _; lia]. }
    assert (Hcont : forall st2, calls st2 = S (calls st) ->
              let st' := snd (retryLoop env ctx config todo (attempt + 1) st2
                                (option_map closeBody r0) e0) in
              (calls st <= calls st' <= calls st + S todo)%nat /\
              (S todo <> 0%nat -> (calls st < calls st')%nat)).
    { intros st2 Hst2. cbv zeta.
      destruct (IH (attempt + 1) st2 (option_map closeBody r0) e0) as [Hb _].
      split; [lia | intros _; lia]. }
    destruct (attempt <? MaxAttempts config - 1).
    + pose proof (waitWithBackoff_calls env ctx st1 attempt config) as Hw.
      destruct (waitWithBackoff env ctx st1 attempt config) as [[e|] st2];
        cbn [snd] in Hw.
      * cbn [snd]. rewrite Hw. cbn. split; [lia | intros _; lia].
      * apply Hcont. rewrite Hw. reflexivity.
    + apply Hcont. reflexivity.
Qed.

(** X3.  Whatever the transport answers, whatever the predicate decides and
    whether or not the context fires, [executeWithRetry] never makes more
    sends than the attempts allowed (the value after defaults), and makes at
    least one when at least one is allowed. *)
Theorem executeWithRetry_send_bound
    (env : Env) (ctx : Context) (st : State) (config : RetryConfig) :
  let n := Z.to_nat (MaxAttempts (applyRetryDefaults config)) in
  let st' := snd (executeWithRetry env ctx st config) in
  (calls st <= calls st' <= calls st + n)%nat /\
  (1 <= MaxAttempts (applyRetryDefaults config) -> (calls st < calls st')%nat).
Proof.
  cbv zeta. unfold executeWithRetry.
  destruct (retryLoop_calls_bound env ctx (applyRetryDefaults config)
              (Z.to_nat (MaxAttempts (applyRetryDefaults config))) 0 st None None)
    as [Hb Hpos].
  split; [exact Hb|].
  intros Hn. apply Hpos. lia.
Qed.

Lemma retryLoop_stops_at_terminal (env : Env) (ctx : Context) (config : RetryConfig) :
  doneAt ctx = None ->
  forall (k todo : nat) (attempt : Z) (st : State)
         (resp : option Response) (lastErr : option error),
  (k < todo)%nat ->
  allRetryable env config st k ->
  shouldRetryOf config (fst (attemptOutcome env st k))
                       (snd (attemptOutcome env st k)) = false ->
  exists st',
    retryLoop env ctx config todo attempt st resp lastErr =
      (attemptOutcome env st k, st')
    /\ calls st' = (calls st + S k)%nat.
Proof.
  intros Hctx k.
  induction k as [|k IH]; intros todo attempt st resp lastErr Hk Hall Hstop;
    (destruct todo as [|todo]; [lia|]); cbn [retryLoop]; unfold Do.
  - rewrite <- attemptOutcome_first in Hstop |- *.
    destruct (outcome (transport env (calls st))) as [r0 e0].
    cbn [fst snd] in Hstop. rewrite Hstop. cbn [negb].
    eexists. split; [reflexivity | cbn; lia].
  - pose proof (Hall 0%nat ltac:(lia)) as H0.
    rewrite <- attemptOutcome_first in H0.
    destruct (outcome (transport env (calls st))) as [r0 e0].
    cbn [fst snd] in H0. rewrite H0. cbn [negb].
    set (st1 := {| clock := clock st + took (transport env (calls st));
                   calls := S (calls st) |}).
    assert (Hcont : forall st2, calls st2 = S (calls st) ->
              exists st',
                retryLoop env ctx config todo (attempt + 1) st2
                          (option_map closeBody r0) e0 =
                  (attemptOutcome env st (S k), st')
                /\ calls st' = (calls st + S (S k))%nat).
    { intros st2 Hst2.
      rewrite <- (attemptOutcome_next env st st2 k Hst2) in Hstop |- *.
      destruct (IH todo (attempt + 1) st2 (option_map closeBody r0) e0
                  ltac:(lia) (allRetryable_next env config st st2 k Hst2 Hall) Hstop)
        as [st' [Hrun Hcalls]].
      exists st'. split; [exact Hrun | lia]. }
    destruct (attempt <? MaxAttempts config - 1).
    + destruct (waitWithBackoff_never_done env ctx st1 attempt config Hctx)
        as [st2 [Hwait Hst2]].
      rewrite Hwait. apply Hcont. exact Hst2.
    + apply Hcont. reflexivity.
Qed.

(** X4.  When the context never fires, the attempts before the [k]-th are
    judged retryable and the [k]-th is not, [executeWithRetry] returns what
    that attempt produced, untouched (an envelope with its body neither read
    nor closed, a fault unwrapped), after exactly [k + 1] sends. *)
Theorem first_terminal_outcome_returned
    (env : Env) (ctx : Context) (st : State) (config : RetryConfig) (k : nat) :
  let config' := applyRetryDefaults config in
  doneAt ctx = None ->
  Z.of_nat k < MaxAttempts config' ->
  allRetryable env config' st k ->
  shouldRetryOf config' (fst (attemptOutcome env st k))
                        (snd (attemptOutcome env st k)) = false ->
  fst (executeWithRetry env ctx st config) = attemptOutcome env st k /\
  calls (snd (executeWithRetry env ctx st config)) = (calls st + S k)%nat.
Proof.
  intros config' Hctx Hk Hall Hstop. unfold executeWithRetry. fold config'.
  destruct (retryLoop_stops_at_terminal env ctx config' Hctx k
              (Z.to_nat (MaxAttempts config')) 0 st None None
              ltac:(lia) Hall Hstop) as [st' [Hrun Hcalls]].
  rewrite Hrun. split; [reflexivity | exact Hcalls].
Qed.

(** X5.  Under the default predicate, an envelope with a status below 500
    other than 429 that comes without a fault ends the execution at once: it
    is returned as it is after that one send and no wait, even if the context
    has already fired. *)
Theorem default_policy_terminal_status
    (env : Env) (ctx : Context) (st : State) (config : RetryConfig) (r : Response) :
  ShouldRetry config = None ->
  1 <= MaxAttempts (applyRetryDefaults config) ->
  outcome (transport env (calls st)) = (Some r, None) ->
  StatusCode r < 500 ->
  StatusCode r <> 429 ->
  executeWithRetry env ctx st config =
    ((Some r, None),
     {| clock := clock st + took (transport env (calls st)); calls := S (calls st) |}).
Proof.
  intros Hpred Hn Hout Hlt Hne. unfold executeWithRetry.
  destruct (Z.to_nat (MaxAttempts (applyRetryDefaults config))) as [|todo] eqn:Htodo;
    [lia|].
  cbn [retryLoop]. unfold Do. rewrite Hout.
  unfold shouldRetryOf. cbn [applyRetryDefaults ShouldRetry]. rewrite Hpred.
  unfold defaultShouldRetry, StatusTooManyRequests.
  replace (StatusCode r >=? 500) with false
    by (symmetry; rewrite Z.geb_leb; apply Z.leb_gt; lia).
  replace (StatusCode r =? 429) with false by (symmetry; apply Z.eqb_neq; lia).
  reflexivity.
Qed.

Lemma first_terminal_outcome_returned_witness :
  fst (executeWithRetry flaky background start threeAttempts) = (Some response200, None) /\
  calls (snd (executeWithRetry flaky background start threeAttempts)) = 3%nat.
Proof.
  apply (first_terminal_outcome_returned flaky background start threeAttempts 2).
  - reflexivity.
  - reflexivity.
  - intros k Hk.
    destruct k as [|[|k]]; [reflexivity | reflexivity | lia].
  - reflexivity.
Defined.

Lemma default_policy_terminal_status_witness :
  executeWithRetry always404 cancelled start threeAttempts =
    ((Some response404, None), {| clock := 5 * Millisecond; calls := 1 |}).
Proof.
  apply (default_policy_terminal_status always404 cancelled start threeAttempts
           response404).
  - reflexivity.
  - discriminate.
  - reflexivity.
  - reflexivity.
  - discriminate.
Defined.

(** Attempt 3 of the default policy waits between 800ms and 1.6s. *)
Lemma calculateBackoff_in_range_witness :
  800 * Millisecond <= calculateBackoff 12345 3 DefaultRetryWaitTime DefaultRetryMaxWaitTime
    < 1600 * Millisecond.
Proof.
  pose proof (calculateBackoff_in_range 12345 3 DefaultRetryWaitTime
                DefaultRetryMaxWaitTime
                ltac:(split; discriminate) ltac:(discriminate)
                ltac:(split; [discriminate | reflexivity]) ltac:(reflexivity)) as H.
  cbv zeta in H.
  change (Z.min DefaultRetryMaxWaitTime (DefaultRetryWaitTime * 2 ^ 3))
    with (1600 * Millisecond) in H.
  change (Z.quot (1600 * Millisecond) 2) with (800 * Millisecond) in H.
  destruct H as [Hlo [Hhi _]].
  split; [exact Hlo | apply Hhi; reflexivity].
Defined.

Lemma joinURL_at_most_one_slash_witness :
  joinURL "https://api.example.com/" "/v1/users" = "https://api.example.com/v1/users"%string /\
  joinURL "https://api.example.com" "v1/users" = "https://api.example.com/v1/users"%string.
Proof.
  split.
  - apply (joinURL_at_most_one_slash "https://api.example.com" "v1/users" "/" "/");
      [reflexivity | reflexivity | right; reflexivity | right; reflexivity | discriminate].
  - apply (joinURL_at_most_one_slash "https://api.example.com" "v1/users" "" "");
      [reflexivity | reflexivity | left; reflexivity | left; reflexivity | discriminate].
Defined.

(** ** errors.go *)

(** X8.  The predicates of a Structured Error are consistent: not-found,
    unauthorized and forbidden exclude one another and each implies
    client-error; client-error and server-error never hold together; and a
    status below 400 or from 600 on is neither. *)
Theorem APIError_predicates (e : APIError.t) :
  (IsNotFound e = true -> IsClientError e = true /\
                          IsUnauthorized e = false /\ IsForbidden e = false) /\
  (IsUnauthorized e = true -> IsClientError e = true /\
                              IsNotFound e = false /\ IsForbidden e = false) /\
  (IsForbidden e = true -> IsClientError e = true /\
                           IsNotFound e = false /\ IsUnauthorized e = false) /\
  (IsClientError e && IsServerError e = false) /\
  (IsClientError e || IsServerError e = true <->
     400 <= APIError.StatusCode e < 600).
Proof.
  unfold IsNotFound, IsUnauthorized, IsForbidden, IsClientError, IsServerError.
  set (c := APIError.StatusCode e).
  destruct (Z.eqb_spec c 404), (Z.eqb_spec c 401), (Z.eqb_spec c 403),
    (Z.geb_spec c 400), (Z.ltb_spec c 500), (Z.geb_spec c 500), (Z.ltb_spec c 600);
    cbn; repeat split; intros; try reflexivity; try discriminate; try lia.
Qed.

(** X9.  [Do] classifies a response as a failure exactly when its status is
    outside [200, 300); the Structured Error then carries that status,
    whether or not the body could be read and whatever it holds. *)
Theorem classify_status (unmarshal : list byte -> option ErrorResponse.t)
    (resp : Response) :
  (classify unmarshal resp = None <-> 200 <= StatusCode resp < 300) /\
  (forall e, classify unmarshal resp = Some e ->
     APIError.StatusCode e = StatusCode resp /\
     (IsServerError e = true <-> 500 <= StatusCode resp < 600) /\
     (IsClientError e = true <-> 400 <= StatusCode resp < 500)).
Proof.
  assert (Hstatus : APIError.StatusCode (handleErrorResponse unmarshal resp)
                    = StatusCode resp).
  { unfold handleErrorResponse.
    destruct (ReadAll (Body resp)) as [[body err] drained].
    destruct err as [e|]; [reflexivity|].
    destruct (unmarshal body) as [er|]; [|reflexivity].
    destruct (negb _); reflexivity. }
  unfold classify.
  destruct (Z.ltb_spec (StatusCode resp) 200) as [H1|H1];
    destruct (Z.geb_spec (StatusCode resp) 300) as [H2|H2]; cbn [orb].
  all: split; [split; [try discriminate; intros; lia | try (intros; lia); reflexivity]|].
  all: intros e He; try discriminate; injection He as <-.
  all: unfold IsServerError, IsClientError; rewrite Hstatus.
  all: split; [reflexivity|].
  all: rewrite !andb_true_iff, !Z.geb_le, !Z.ltb_lt; split; split; intros; lia.
Qed.

(** X10.  [firstNonEmpty] is empty exactly when every string is; otherwise
    it is the first string of the list that is not empty: everything before
    it is. *)
Theorem firstNonEmpty_first (strs : list string) :
  (firstNonEmpty strs = ""%string <-> Forall (fun s => s = ""%string) strs) /\
  (firstNonEmpty strs <> ""%string ->
     exists before after,
       strs = (before ++ firstNonEmpty strs :: after)%list /\
       Forall (fun s => s = ""%string) before).
Proof.
  induction strs as [|s strs [IHe IHn]].
  - split; [split; [constructor | reflexivity] | intros H; contradiction H; reflexivity].
  - cbn [firstNonEmpty].
    destruct (String.eqb_spec s "") as [->|Hs]; cbn [negb].
    + split.
      * rewrite IHe. split; intros H.
        -- constructor; [reflexivity | exact H].
        -- inversion H; assumption.
      * intros Hne. destruct (IHn Hne) as [before [after [Heq Hall]]].
        exists (""%string :: before), after. split.
        -- cbn. rewrite <- Heq. reflexivity.
        -- constructor; [reflexivity | exact Hall].
    + split.
      * split; intros H; [contradiction | inversion H; contradiction].
      * intros _. exists [], strs. split; [reflexivity | constructor].
Qed.

(** ** request.go: response middleware *)

Lemma middlewareLoop_ignores_later_steps (data : list byte)
    (steps : list ResponseMiddleware) :
  forall resp,
  fault (middlewareLoop data steps resp) <> None ->
  forall others,
    middlewareLoop data
      (firstn (List.length (handed (middlewareLoop data steps resp))) steps ++ others)
      resp
    = middlewareLoop data steps resp.
Proof.
  induction steps as [|mw steps IH]; intros resp Hfault others.
  - cbn in Hfault. contradiction Hfault. reflexivity.
  - cbn [middlewareLoop] in *.
    destruct (mw resp) as [resp' err] eqn:Hmw.
    destruct err as [e|].
    + cbn [handed List.length firstn app middlewareLoop]. rewrite Hmw. reflexivity.
    + cbn [handed fault List.length firstn app middlewareLoop] in *.
      rewrite Hmw. rewrite (IH _ Hfault others). reflexivity.
Qed.

(** X11.  Once a step has faulted, the steps registered after it play no part:
    the run (envelope, fault and the steps that ran) is the same whatever
    follows the faulting step in the chain. *)
Theorem applyResponseMiddleware_stops_at_fault
    (steps : list ResponseMiddleware) (resp : Response) (e : error) :
  fault (applyResponseMiddleware steps resp) = Some e ->
  forall others,
    applyResponseMiddleware
      (firstn (List.length (handed (applyResponseMiddleware steps resp))) steps ++ others)
      resp
    = applyResponseMiddleware steps resp.
Proof.
  unfold applyResponseMiddleware.
  destruct (ReadAll (Body resp)) as [[data err] drained].
  destruct err as [e0|]; intros Hfault others.
  - reflexivity.
  - apply middlewareLoop_ignores_later_steps. rewrite Hfault. discriminate.
Qed.

Lemma applyResponseMiddleware_stops_at_fault_witness :
  applyResponseMiddleware
    ([drainingStep; faultingStep] ++ [faultingStep; drainingStep]) response503
  = applyResponseMiddleware [drainingStep; faultingStep; drainingStep] response503.
Proof.
  exact (applyResponseMiddleware_stops_at_fault
           [drainingStep; faultingStep; drainingStep] response503
           (Wrap "response middleware error" (MiddlewareFault "rejected"))
           eq_refl [faultingStep; drainingStep]).
Defined.

Lemma setBody_same (r : Response) (b : ReadCloser) :
  Body r = b -> setBody r b = r.
Proof. intros <-. destruct r; reflexivity. Qed.

Lemma middlewareLoop_app (data : list byte) (s1 s2 : list ResponseMiddleware) :
  forall resp,
  fault (middlewareLoop data s1 resp) = None ->
  let run1 := middlewareLoop data s1 resp in
  let run2 := middlewareLoop data s2 (envelope run1) in
  middlewareLoop data (s1 ++ s2) resp =
    {| envelope := envelope run2; fault := fault run2;
       handed := handed run1 ++ handed run2 |}.
Proof.
  induction s1 as [|mw s1 IH]; intros resp Hok; cbv zeta.
  - cbn. destruct (middlewareLoop data s2 resp); reflexivity.
  - cbn [middlewareLoop app] in *.
    destruct (mw resp) as [resp' err].
    destruct err as [e|]; [discriminate|].
    cbn [fault envelope handed] in *.
    rewrite (IH _ Hok). reflexivity.
Qed.

(** X12.  Response middleware composes: when a chain runs without fault,
    running a second chain on the envelope it leaves gives the same envelope
    and the same fault as running the two chains joined into one, and the
    steps of the joined chain are handed the same envelopes in the same
    order. *)
Theorem applyResponseMiddleware_app
    (s1 s2 : list ResponseMiddleware) (resp : Response) :
  fault (applyResponseMiddleware s1 resp) = None ->
  let run1 := applyResponseMiddleware s1 resp in
  let run2 := applyResponseMiddleware s2 (envelope run1) in
  envelope (applyResponseMiddleware (s1 ++ s2) resp) = envelope run2 /\
  fault (applyResponseMiddleware (s1 ++ s2) resp) = fault run2 /\
  handed (applyResponseMiddleware (s1 ++ s2) resp) = (handed run1 ++ handed run2)%list.
Proof.
  intros Hok. cbv zeta.
  unfold applyResponseMiddleware in Hok |- *.
  destruct (ReadAll (Body resp)) as [[data err] drained].
  destruct err as [e|]; [discriminate|].
  set (r0 := setBody (setBody resp (Close drained)) (freshView data)) in *.
  destruct (middlewareLoop_fresh data s1 r0 eq_refl) as [_ [Hend _]].
  rewrite (middlewareLoop_app data s1 s2 r0 Hok).
  set (E := envelope (middlewareLoop data s1 r0)) in *.
  rewrite Hend. cbn [ReadAll freshView].
  replace (setBody (setBody E (Close (NopCloser []))) (freshView data)) with E
    by (symmetry; apply (setBody_same E); exact Hend).
  cbn [envelope fault handed].
  repeat split.
Qed.

Lemma applyResponseMiddleware_app_witness :
  fault (applyResponseMiddleware ([drainingStep] ++ [faultingStep]) response503) =
  fault (applyResponseMiddleware [faultingStep]
           (envelope (applyResponseMiddleware [drainingStep] response503))).
Proof.
  exact (proj1 (proj2 (applyResponseMiddleware_app
                         [drainingStep] [faultingStep] response503 eq_refl))).
Defined.

(** ** Request middleware *)

Lemma headerGet_headerSet (canon : string -> string) (h : HttpHeader)
    (key value k : string) :
  headerGet canon (headerSet canon h key value) k =
    if String.eqb (canon k) (canon key) then value else headerGet canon h k.
Proof.
  unfold headerGet, headerSet.
  destruct (String.eqb (canon k) (canon key)); reflexivity.
Qed.

(** X13.  [AuthMiddleware] accepts exactly the scheme tags [Bearer],
    [APIKey] and [Basic].  For these it reports no fault and sets one header
    ([Authorization] to the tag, a space and the value for [Bearer] and
    [Basic]; [X-API-Key] to the value for [APIKey]), leaving every other
    header, the method, the address and the body as they were; for any other
    tag it faults and leaves the request untouched. *)
Theorem AuthMiddleware_schemes (canon : string -> string)
    (authType authValue : string) (req : Request) :
  let req' := fst (AuthMiddleware canon authType authValue req) in
  let err := snd (AuthMiddleware canon authType authValue req) in
  let key := if String.eqb authType "APIKey" then "X-API-Key"%string
             else "Authorization"%string in
  let value := if String.eqb authType "APIKey" then authValue
               else (authType ++ " " ++ authValue)%string in
  Method req' = Method req /\ URL req' = URL req /\ ReqBody req' = ReqBody req /\
  (authType = "Bearer"%string \/ authType = "APIKey"%string \/ authType = "Basic"%string ->
     err = None /\
     headerGet canon (ReqHeader req') key = value /\
     forall k, canon k <> canon key ->
       headerGet canon (ReqHeader req') k = headerGet canon (ReqHeader req) k) /\
  (authType <> "Bearer"%string -> authType <> "APIKey"%string ->
   authType <> "Basic"%string ->
     req' = req /\
     err = Some (MiddlewareFault ("unsupported auth type: " ++ authType))).
Proof.
  cbv zeta. unfold AuthMiddleware.
  destruct (String.eqb_spec authType "Bearer") as [->|HnBearer].
  { cbn [fst snd setHeader Method URL ReqBody ReqHeader].
    split; [reflexivity|]. split; [reflexivity|]. split; [reflexivity|].
    split.
    - intros _. split; [reflexivity|]. split.
      + rewrite headerGet_headerSet, String.eqb_refl. reflexivity.
      + intros k Hk. rewrite headerGet_headerSet.
        destruct (String.eqb_spec (canon k) (canon "Authorization"));
          [contradiction | reflexivity].
    - intros H1 H2 H3. exfalso. apply H1. reflexivity. }
  destruct (String.eqb_spec authType "APIKey") as [->|HnAPIKey].
  { cbn [fst snd setHeader Method URL ReqBody ReqHeader].
    split; [reflexivity|]. split; [reflexivity|]. split; [reflexivity|].
    split.
    - intros _. split; [reflexivity|]. split.
      + rewrite headerGet_headerSet, String.eqb_refl. reflexivity.
      + intros k Hk. rewrite headerGet_headerSet.
        destruct (String.eqb_spec (canon k) (canon "X-API-Key"));
          [contradiction | reflexivity].
    - intros H1 H2 H3. exfalso. apply H2. reflexivity. }
  destruct (String.eqb_spec authType "Basic") as [->|HnBasic].
  { cbn [fst snd setHeader Method URL ReqBody ReqHeader].
    split; [reflexivity|]. split; [reflexivity|]. split; [reflexivity|].
    split.
    - intros _. split; [reflexivity|]. split.
      + rewrite headerGet_headerSet, String.eqb_refl. reflexivity.
      + intros k Hk. rewrite headerGet_headerSet.
        destruct (String.eqb_spec (canon k) (canon "Authorization"));
          [contradiction | reflexivity].
    - intros H1 H2 H3. exfalso. apply H3. reflexivity. }
  cbn [fst snd].
  split; [reflexivity|]. split; [reflexivity|]. split; [reflexivity|].
  split.
  - intros [H | [H | H]]; contradiction.
  - intros _ _ _. split; reflexivity.
Qed.

Lemma setHeaders_frame (canon : string -> string) (headers : list (string * string)) :
  forall req,
  Method (setHeaders canon req headers) = Method req /\
  URL (setHeaders canon req headers) = URL req /\
  ReqBody (setHeaders canon req headers) = ReqBody req /\
  forall k, ~ In (canon k) (map (fun kv => canon (fst kv)) headers) ->
    ReqHeader (setHeaders canon req headers) (canon k) = ReqHeader req (canon k).
Proof.
  unfold setHeaders.
  induction headers as [|[k0 v0] headers IH]; intros req.
  - cbn. repeat split.
  - cbn [fold_left fst snd].
    destruct (IH (setHeader canon req k0 v0)) as [Hm [Hu [Hb Hh]]].
    rewrite Hm, Hu, Hb. cbn [setHeader Method URL ReqBody].
    repeat split.
    intros k Hk. cbn [map fst In] in Hk.
    rewrite Hh by tauto.
    cbn [setHeader ReqHeader]. unfold headerSet.
    destruct (String.eqb_spec (canon k) (canon k0)) as [Heq|_]; [|reflexivity].
    exfalso. apply Hk. left. symmetry. exact Heq.
Qed.

(** X14.  The header loop shared by [execute] and [HeaderMiddleware]: when
    the canonical forms of the keys are pairwise distinct, every entry is
    readable from the request afterwards under its key, in whatever order the
    entries were visited; headers under other keys, the method, the address
    and the body are unchanged, and no fault is reported. *)
Theorem HeaderMiddleware_sets_every_entry (canon : string -> string)
    (headers : list (string * string)) (req : Request) :
  NoDup (map (fun kv => canon (fst kv)) headers) ->
  let req' := fst (HeaderMiddleware canon headers req) in
  snd (HeaderMiddleware canon headers req) = None /\
  Method req' = Method req /\ URL req' = URL req /\ ReqBody req' = ReqBody req /\
  (forall k v, In (k, v) headers -> headerGet canon (ReqHeader req') k = v) /\
  (forall k, ~ In (canon k) (map (fun kv => canon (fst kv)) headers) ->
     headerGet canon (ReqHeader req') k = headerGet canon (ReqHeader req) k).
Proof.
  intros Hnodup. cbv zeta. unfold HeaderMiddleware. cbn [fst snd].
  destruct (setHeaders_frame canon headers req) as [Hm [Hu [Hb Hh]]].
  repeat split; try assumption.
  - revert req Hm Hu Hb Hh.
    induction headers as [|[k0 v0] headers IH]; intros req _ _ _ _ k v Hin.
    + contradiction.
    + cbn [map fst] in Hnodup. inversion Hnodup as [|x xs Hnotin Hnodup']; subst.
      unfold setHeaders. cbn [fold_left fst snd].
      fold (setHeaders canon (setHeader canon req k0 v0) headers).
      destruct Hin as [Heq | Hin].
      * injection Heq as -> ->.
        unfold headerGet.
        destruct (setHeaders_frame canon headers (setHeader canon req k v))
          as [_ [_ [_ Hh']]].
        rewrite (Hh' k Hnotin).
        cbn [setHeader ReqHeader]. unfold headerSet.
        rewrite String.eqb_refl. reflexivity.
      * destruct (setHeaders_frame canon headers (setHeader canon req k0 v0))
          as [Hm' [Hu' [Hb' Hh']]].
        exact (IH Hnodup' (setHeader canon req k0 v0) Hm' Hu' Hb' Hh' k v Hin).
  - intros k Hk. unfold headerGet. rewrite (Hh k Hk). reflexivity.
Qed.

Lemma HeaderMiddleware_sets_every_entry_witness :
  headerGet (fun k => k)
    (ReqHeader (fst (HeaderMiddleware (fun k => k)
                       [("Accept"%string, "application/json"%string);
                        ("X-Trace"%string, "abc"%string)] sampleRequest)))
    "X-Trace" = "abc"%string.
Proof.
  assert (Hnodup : NoDup (map (fun kv : string * string => fst kv)
                            [("Accept"%string, "application/json"%string);
                             ("X-Trace"%string, "abc"%string)])).
  { constructor; [intros [H | []]; discriminate|].
    constructor; [intros []|]. constructor. }
  destruct (HeaderMiddleware_sets_every_entry (fun k => k)
              [("Accept"%string, "application/json"%string);
               ("X-Trace"%string, "abc"%string)] sampleRequest Hnodup)
    as [_ [_ [_ [_ [Hget _]]]]].
  apply Hget. right. left. reflexivity.
Defined.

(** ** request.go: the builder, [execute] and [Do] *)

Lemma applyMiddleware_always_faulting (mw : Middleware) (steps : list Middleware) :
  In mw steps ->
  (forall r, snd (mw r) <> None) ->
  forall req, exists r' e,
    applyMiddleware steps req = (r', Some (Wrap "middleware error" e)).
Proof.
  intros Hin Hfaults.
  induction steps as [|mw0 steps IH]; intros req; [contradiction|].
  cbn [applyMiddleware].
  destruct (mw0 req) as [r1 [e|]] eqn:Hmw0.
  - exists r1, e. reflexivity.
  - destruct Hin as [-> | Hin].
    + exfalso. apply (Hfaults req). rewrite Hmw0. reflexivity.
    + apply (IH Hin).
Qed.

(** X15.  A client whose request middleware holds an [AuthMiddleware] with a
    scheme tag other than [Bearer], [APIKey] and [Basic] never sends
    anything: every [Do] on it returns a fault with no call to the transport,
    and for a builder without error whose request can be created the fault is
    a middleware error. *)
Theorem Do_unsupported_auth_sends_nothing
    (P : Platform) (env : Env) (st : State) (b : RequestBuilder.t)
    (result : option (ReadCloser -> option error))
    (canon : string -> string) (authType authValue : string) :
  In (AuthMiddleware canon authType authValue) (RequestBuilder.clientMiddleware b) ->
  authType <> "Bearer"%string -> authType <> "APIKey"%string ->
  authType <> "Basic"%string ->
  exists e,
    RequestBuilder.Do P env st b result = Returns (Some (Fault e), st) /\
    (RequestBuilder.err b = None ->
     checkRequest P (RequestBuilder.ctx b) (RequestBuilder.method b)
                  (RequestBuilder.fullURL P b) = None ->
     exists inner, e = Wrap "middleware error" inner).
Proof.
  intros Hin H1 H2 H3.
  assert (Hfaults : forall r, snd (AuthMiddleware canon authType authValue r) <> None).
  { intros r. unfold AuthMiddleware.
    destruct (String.eqb_spec authType "Bearer"); [contradiction|].
    destruct (String.eqb_spec authType "APIKey"); [contradiction|].
    destruct (String.eqb_spec authType "Basic"); [contradiction|].
    discriminate. }
  unfold RequestBuilder.Do.
  destruct (RequestBuilder.err b) as [e0|].
  { exists e0. split; [reflexivity | discriminate]. }
  unfold RequestBuilder.execute.
  destruct (checkRequest P (RequestBuilder.ctx b) (RequestBuilder.method b)
              (RequestBuilder.fullURL P b)) as [e1|].
  { eexists. split; [reflexivity | discriminate]. }
  destruct (applyMiddleware_always_faulting _ _ Hin Hfaults
              (RequestBuilder.newRequest P b)) as [r' [e Hrun]].
  rewrite Hrun.
  eexists. split; [reflexivity|].
  intros _ _. exists e. reflexivity.
Qed.

Lemma Do_unsupported_auth_sends_nothing_witness :
  RequestBuilder.Do samplePlatform always503 start
    (sampleBuilder None [AuthMiddleware (fun k => k) "Digest" "secret"]) None
  = Returns (Some (Fault (Wrap "middleware error"
                            (MiddlewareFault "unsupported auth type: Digest"))), start).
Proof.
  destruct (Do_unsupported_auth_sends_nothing samplePlatform always503 start
              (sampleBuilder None [AuthMiddleware (fun k => k) "Digest" "secret"]) None
              (fun k => k) "Digest" "secret"
              (or_introl eq_refl)
              ltac:(discriminate) ltac:(discriminate) ltac:(discriminate))
    as [e [Hdo Hwrap]].
  rewrite Hdo.
  destruct (Hwrap eq_refl eq_refl) as [inner ->].
  vm_compute in Hdo. injection Hdo as <-. reflexivity.
Defined.

Lemma apply_keeps_error (b : RequestBuilder.t) (c : RequestBuilder.call) (e : error) :
  RequestBuilder.err b = Some e ->
  RequestBuilder.err (RequestBuilder.apply b c) = Some e.
Proof.
  intros He. destruct c; cbn; try exact He.
  unfold RequestBuilder.WithJSON. rewrite He. exact He.
Qed.

Lemma chain_keeps_error (cs : list RequestBuilder.call) :
  forall (b : RequestBuilder.t) (e : error),
  RequestBuilder.err b = Some e ->
  RequestBuilder.err (RequestBuilder.chain b cs) = Some e.
Proof.
  unfold RequestBuilder.chain.
  induction cs as [|c cs IH]; intros b e He; [exact He|].
  cbn [fold_left]. apply IH. apply apply_keeps_error. exact He.
Qed.

(** X16.  The error of the builder is sticky: once [WithJSON] has failed to
    marshal its argument on a builder without error, whatever builder calls
    follow, [Do] and [DoWithResponse] return that marshalling error and
    neither create a request nor call the transport. *)
Theorem marshal_failure_is_sticky
    (P : Platform) (env : Env) (st : State) (b : RequestBuilder.t)
    (e : error) (cs : list RequestBuilder.call)
    (result : option (ReadCloser -> option error)) :
  RequestBuilder.err b = None ->
  let b' := RequestBuilder.chain (RequestBuilder.WithJSON b (inr e)) cs in
  RequestBuilder.Do P env st b' result =
    Returns (Some (Fault (Wrap "failed to marshal JSON" e)), st) /\
  RequestBuilder.DoWithResponse P env st b' =
    Returns ((None, Some (Wrap "failed to marshal JSON" e)), st).
Proof.
  intros Hok b'.
  assert (Herr : RequestBuilder.err b' = Some (Wrap "failed to marshal JSON" e)).
  { apply chain_keeps_error. unfold RequestBuilder.WithJSON. rewrite Hok. reflexivity. }
  unfold RequestBuilder.Do, RequestBuilder.DoWithResponse. rewrite Herr.
  split; reflexivity.
Qed.

Lemma marshal_failure_is_sticky_witness :
  RequestBuilder.Do samplePlatform always503 start
    (RequestBuilder.chain
       (RequestBuilder.WithJSON (sampleBuilder None []) (inr (ReadFault "unsupported type")))
       [RequestBuilder.CallWithHeader "X-Trace" "abc";
        RequestBuilder.CallWithJSON (inl [x7b; x7d]);
        RequestBuilder.CallPOST "/v1/users"])
    None
  = Returns (Some (Fault (Wrap "failed to marshal JSON" (ReadFault "unsupported type"))),
             start).
Proof.
  exact (proj1 (marshal_failure_is_sticky samplePlatform always503 start
                  (sampleBuilder None []) (ReadFault "unsupported type")
                  [RequestBuilder.CallWithHeader "X-Trace" "abc";
                   RequestBuilder.CallWithJSON (inl [x7b; x7d]);
                   RequestBuilder.CallPOST "/v1/users"]
                  None eq_refl)).
Defined.

Lemma dispatch_calls_bound (env : Env) (st : State) (b : RequestBuilder.t) :
  let budget :=
    match retryConfig (RequestBuilder.client b) with
    | Some config => Z.to_nat (MaxAttempts (applyRetryDefaults config))
    | None => 1%nat
    end in
  (calls st <= calls (snd (RequestBuilder.dispatch env st b)) <= calls st + budget)%nat.
Proof.
  cbv zeta. unfold RequestBuilder.dispatch.
  destruct (retryConfig (RequestBuilder.client b)) as [config|].
  - unfold executeWithRetry.
    apply (retryLoop_calls_bound env (RequestBuilder.ctx b) (applyRetryDefaults config)).
  - cbn. lia.
Qed.

(** X17.  Whenever [execute] returns, it has made at most one send without a
    retry policy and at most [MaxAttempts] (after defaults) with one, and it
    never returns an envelope together with an error. *)
Theorem execute_budget
    (P : Platform) (env : Env) (st : State) (b : RequestBuilder.t)
    (resp : option Response) (err : option error) (st' : State) :
  RequestBuilder.execute P env st b = Returns ((resp, err), st') ->
  let budget :=
    match retryConfig (RequestBuilder.client b) with
    | Some config => Z.to_nat (MaxAttempts (applyRetryDefaults config))
    | None => 1%nat
    end in
  (calls st <= calls st' <= calls st + budget)%nat /\
  (resp = None \/ err = None).
Proof.
  intros Hexec. cbv zeta.
  pose proof (dispatch_calls_bound env st b) as Hbound. cbv zeta in Hbound.
  unfold RequestBuilder.execute in Hexec.
  destruct (checkRequest P _ _ _) as [e|].
  { injection Hexec as <- <- <-. split; [lia | left; reflexivity]. }
  destruct (applyMiddleware _ _) as [req' [e|]].
  { injection Hexec as <- <- <-. split; [lia | left; reflexivity]. }
  destruct (RequestBuilder.dispatch env st b) as [[r e] st1]. cbn [snd] in Hbound.
  destruct e as [e|].
  { injection Hexec as <- <- <-. split; [exact Hbound | left; reflexivity]. }
  destruct (responseMiddleware (RequestBuilder.client b)) as [|mw steps].
  { injection Hexec as <- <- <-. split; [exact Hbound | right; reflexivity]. }
  destruct r as [r|]; [|discriminate].
  destruct (fault (applyResponseMiddleware (mw :: steps) r)) as [e|];
    injection Hexec as <- <- <-;
    (split; [exact Hbound | (left; reflexivity) || (right; reflexivity)]).
Qed.

Lemma execute_budget_witness :
  (calls (snd (RequestBuilder.dispatch always503 start
                 (sampleBuilder (Some threeAttempts) []))) <= 3)%nat /\
  RequestBuilder.execute samplePlatform always503 start
    (sampleBuilder (Some threeAttempts) [])
  = Returns ((Some (closeBody response503), None),
             snd (RequestBuilder.dispatch always503 start
                    (sampleBuilder (Some threeAttempts) []))).
Proof.
  assert (Hexec : RequestBuilder.execute samplePlatform always503 start
                    (sampleBuilder (Some threeAttempts) [])
                  = Returns ((Some (closeBody response503), None),
                             snd (RequestBuilder.dispatch always503 start
                                    (sampleBuilder (Some threeAttempts) [])))).
  { reflexivity. }
  split; [|exact Hexec].
  exact (proj2 (proj1 (execute_budget samplePlatform always503 start
                         (sampleBuilder (Some threeAttempts) []) _ _ _ Hexec))).
Defined.

(** X18.  With a retry policy whose [MaxAttempts] is negative, a request that
    passes the request middleware is never sent and [Do] does not return an
    error: it dereferences the nil response that [executeWithRetry] hands
    back and panics.  Without response middleware [DoWithResponse] returns
    neither a response nor an error. *)
Theorem negative_MaxAttempts_panics
    (P : Platform) (env : Env) (st : State) (b : RequestBuilder.t)
    (config : RetryConfig) (result : option (ReadCloser -> option error)) :
  RequestBuilder.err b = None ->
  checkRequest P (RequestBuilder.ctx b) (RequestBuilder.method b)
               (RequestBuilder.fullURL P b) = None ->
  snd (applyMiddleware (RequestBuilder.clientMiddleware b)
                       (RequestBuilder.newRequest P b)) = None ->
  retryConfig (RequestBuilder.client b) = Some config ->
  MaxAttempts config < 0 ->
  RequestBuilder.Do P env st b result = Panics /\
  (responseMiddleware (RequestBuilder.client b) = [] ->
   RequestBuilder.DoWithResponse P env st b = Returns ((None, None), st)) /\
  (responseMiddleware (RequestBuilder.client b) <> [] ->
   RequestBuilder.DoWithResponse P env st b = Panics).
Proof.
  intros Herr Hcheck Hmw Hretry Hneg.
  assert (Hdispatch : RequestBuilder.dispatch env st b = ((None, None), st)).
  { unfold RequestBuilder.dispatch. rewrite Hretry.
    unfold executeWithRetry.
    assert (Hkeep : MaxAttempts (applyRetryDefaults config) = MaxAttempts config).
    { unfold applyRetryDefaults. cbn [MaxAttempts].
      destruct (Z.eqb_spec (MaxAttempts config) 0); [lia | reflexivity]. }
    rewrite Hkeep.
    replace (Z.to_nat (MaxAttempts config)) with 0%nat by lia.
    reflexivity. }
  unfold RequestBuilder.Do, RequestBuilder.DoWithResponse, RequestBuilder.execute.
  rewrite Herr, Hcheck.
  destruct (applyMiddleware _ _) as [req' e]. cbn [snd] in Hmw. subst e.
  rewrite Hdispatch.
  destruct (responseMiddleware (RequestBuilder.client b)) as [|mw steps].
  - split; [reflexivity|]. split; [reflexivity | intros H; contradiction].
  - split; [reflexivity|]. split; [discriminate | reflexivity].
Qed.

Lemma negative_MaxAttempts_panics_witness :
  RequestBuilder.Do samplePlatform always503 start
    (sampleBuilder (Some negativeAttempts) []) None = Panics.
Proof.
  exact (proj1 (negative_MaxAttempts_panics samplePlatform always503 start
                  (sampleBuilder (Some negativeAttempts) []) negativeAttempts None
                  eq_refl eq_refl eq_refl eq_refl eq_refl)).
Defined.

(** X19.  With the default predicate, when the retries are exhausted on
    envelopes (no cancellation, every attempt retryable, the last one an
    envelope from the transport), the caller of [Do] does not get the body the
    server sent: the loop has closed it, so without response middleware [Do]
    returns a Structured Error with the status of the last envelope, the
    read failure as its message and no body, and with response middleware it
    returns the fault of the buffering read. *)
Theorem exhausted_retries_lose_the_body
    (P : Platform) (env : Env) (st : State) (b : RequestBuilder.t)
    (config : RetryConfig) (result : option (ReadCloser -> option error))
    (r : Response) (unread : list byte) (flt : option error) (closed : bool) :
  let config' := applyRetryDefaults config in
  let n := Z.to_nat (MaxAttempts config') in
  RequestBuilder.err b = None ->
  checkRequest P (RequestBuilder.ctx b) (RequestBuilder.method b)
               (RequestBuilder.fullURL P b) = None ->
  snd (applyMiddleware (RequestBuilder.clientMiddleware b)
                       (RequestBuilder.newRequest P b)) = None ->
  retryConfig (RequestBuilder.client b) = Some config ->
  ShouldRetry config = None ->
  doneAt (RequestBuilder.ctx b) = None ->
  1 <= MaxAttempts config' ->
  allRetryable env config' st n ->
  attemptOutcome env st (n - 1) = (Some r, None) ->
  Body r = TransportBody unread flt closed ->
  exists st',
    calls st' = (calls st + n)%nat /\
    (responseMiddleware (RequestBuilder.client b) = [] ->
     RequestBuilder.Do P env st b result =
       Returns (Some (Classified
                  {| APIError.StatusCode := StatusCode r;
                     APIError.Message :=
                       "failed to read error response: http: read on closed response body";
                     APIError.Body := [] |}), st')) /\
    (responseMiddleware (RequestBuilder.client b) <> [] ->
     RequestBuilder.Do P env st b result =
       Returns (Some (Fault (Wrap "failed to read response body for middleware"
                               ErrBodyReadAfterClose)), st')).
Proof.
  intros config' n Herr Hcheck Hmw Hretry Hpred Hctx Hn Hall Hlast Hbody.
  destruct (executeWithRetry_exhausts env (RequestBuilder.ctx b) st config Hctx Hn Hall)
    as [st' [Hrun Hcalls]].
  fold config' n in Hrun, Hcalls. rewrite Hlast in Hrun. cbn [exhaustedResult] in Hrun.
  exists st'. split; [exact Hcalls|].
  assert (Hstatus : (StatusCode r <? 200) || (StatusCode r >=? 300) = true).
  { assert (Hk : (n - 1 < n)%nat) by lia.
    pose proof (Hall (n - 1)%nat Hk) as Hlastretry.
    rewrite Hlast in Hlastretry. cbn [fst snd] in Hlastretry.
    unfold shouldRetryOf, config' in Hlastretry.
    cbn [applyRetryDefaults ShouldRetry] in Hlastretry. rewrite Hpred in Hlastretry.
    unfold defaultShouldRetry, StatusTooManyRequests in Hlastretry.
    apply orb_true_iff. right. apply Z.geb_le.
    destruct (Z.geb_spec (StatusCode r) 500); [lia|].
    destruct (Z.eqb_spec (StatusCode r) 429); [lia | discriminate]. }
  assert (Hdispatch : RequestBuilder.dispatch env st b = ((Some (closeBody r), None), st')).
  { unfold RequestBuilder.dispatch. rewrite Hretry. exact Hrun. }
  unfold RequestBuilder.Do, RequestBuilder.execute.
  rewrite Herr, Hcheck.
  destruct (applyMiddleware _ _) as [req' e]. cbn [snd] in Hmw. subst e.
  rewrite Hdispatch.
  destruct (responseMiddleware (RequestBuilder.client b)) as [|mw steps].
  - split; [intros _ | intros H; contradiction].
    unfold classify, handleErrorResponse, closeBody, setBody.
    cbn [Body StatusCode]. rewrite Hstatus, Hbody.
    reflexivity.
  - split; [discriminate | intros _].
    unfold applyResponseMiddleware, closeBody, setBody. cbn [Body]. rewrite Hbody.
    reflexivity.
Qed.

Lemma exhausted_retries_lose_the_body_witness :
  exists st',
    RequestBuilder.Do samplePlatform always503 start
      (sampleBuilder (Some threeAttempts) []) None
    = Returns (Some (Classified
                 {| APIError.StatusCode := 503;
                    APIError.Message :=
                      "failed to read error response: http: read on closed response body";
                    APIError.Body := [] |}), st').
Proof.
  destruct (exhausted_retries_lose_the_body samplePlatform always503 start
              (sampleBuilder (Some threeAttempts) []) threeAttempts None
              response503 [x6f; x6f; x70; x73] None false
              eq_refl eq_refl eq_refl eq_refl eq_refl eq_refl
              ltac:(discriminate) ltac:(intros k _; reflexivity) eq_refl eq_refl)
    as [st' [_ [Hdo _]]].
  exists st'. exact (Hdo eq_refl).
Defined.

(** ** debug.go *)

(** X20.  [printBody] honours the body-restoration contract: for a body that
    can be read it reports no error, writes the bytes followed by two line
    feeds (nothing for an empty body), and leaves a body that reads the same
    bytes again, on which a further [printBody] writes the same text and
    changes nothing.  For a body whose read fails it writes nothing and
    returns the read fault. *)
Theorem printBody_restores (w : list byte) (body : ReadCloser) :
  match ReadAll body with
  | (data, None, _) =>
    let text := if (0 <? List.length data)%nat then (data ++ [x0a; x0a])%list else [] in
    printBody w body = ((w ++ text)%list, NopCloser data, None) /\
    ReadAll (NopCloser data) = (data, None, NopCloser []) /\
    forall w', printBody w' (NopCloser data) = ((w' ++ text)%list, NopCloser data, None)
  | (_, Some e, drained) =>
    printBody w body = (w, drained, Some (Wrap "failed to read body for debug" e))
  end.
Proof.
  assert (Hfresh : forall data w',
            printBody w' (NopCloser data) =
              ((w' ++ (if (0 <? List.length data)%nat
                       then (data ++ [x0a; x0a])%list else []))%list,
               NopCloser data, None)).
  { intros data w'. unfold printBody. cbn [ReadAll].
    destruct (0 <? List.length data)%nat; [reflexivity|].
    rewrite app_nil_r. reflexivity. }
  unfold printBody.
  destruct (ReadAll body) as [[data err] drained].
  destruct err as [e|]; [reflexivity|].
  cbv zeta. split; [|split; [reflexivity | apply Hfresh]].
  destruct (0 <? List.length data)%nat; [reflexivity|].
  rewrite app_nil_r. reflexivity.
Qed.

(** ** client.go: options *)

Lemma fold_WithResponseMiddleware (mws : list ResponseMiddleware) :
  forall c : HTTPClient,
  let c' := fold_left (fun c (opt : Option) => opt c)
                      (map WithResponseMiddleware mws) c in
  responseMiddleware c' = (responseMiddleware c ++ mws)%list /\
  baseURL c' = baseURL c /\ httpClient c' = httpClient c /\
  retryConfig c' = retryConfig c.
Proof.
  induction mws as [|mw mws IH]; intros c; cbv zeta.
  - cbn. rewrite app_nil_r. repeat split.
  - cbn [map fold_left].
    destruct (IH (WithResponseMiddleware mw c)) as [Hr [Hb [Hh Hc]]].
    rewrite Hr, Hb, Hh, Hc. cbn. rewrite <- app_assoc. repeat split.
Qed.

(** X21.  Options apply in the order given: response middleware registered
    through [WithResponseMiddleware] ends up in the client in registration
    order; a [WithRetry] after them sets the retry policy (with no custom
    predicate) and a [WithHTTPClient] replaces the pooled client that
    [NewClient] built, neither disturbing the middleware or the base
    address. *)
Theorem NewClient_options_in_order (config : Config.t)
    (mws : list ResponseMiddleware) (maxAttempts waitTime maxWaitTime : Z)
    (doer : Doer) :
  let c := NewClient (Some config)
             (map WithResponseMiddleware mws ++
              [WithRetry maxAttempts waitTime maxWaitTime; WithHTTPClient doer]) in
  responseMiddleware c = mws /\
  retryConfig c = Some {| MaxAttempts := maxAttempts; WaitTime := waitTime;
                          MaxWaitTime := maxWaitTime; ShouldRetry := None |} /\
  httpClient c = doer /\
  baseURL c = Config.BaseURL config /\
  httpClient (NewClient (Some config) (map WithResponseMiddleware mws)) =
    StdClient (Config.Timeout config) (newTransport config).
Proof.
  cbv zeta. unfold NewClient.
  rewrite fold_left_app.
  set (c0 := {| baseURL := Config.BaseURL config;
                httpClient := StdClient (Config.Timeout config) (newTransport config);
                retryConfig := None; responseMiddleware := [] |}).
  pose proof (fold_WithResponseMiddleware mws c0) as H. cbv zeta in H.
  set (c1 := fold_left _ (map WithResponseMiddleware mws) c0) in *.
  destruct H as [Hr [Hb [Hh Hc]]].
  cbn [fold_left WithRetry WithHTTPClient responseMiddleware retryConfig
       httpClient baseURL].
  rewrite Hr, Hb. repeat split. exact Hh.
Qed.

(** ** request.go: what [Do] reports *)







